(** * A shallow embedding of [build.rs] of zig-rs

    The build script is one sequential routine [main] over filesystem
    state.  It is modelled in a state-and-error monad whose state is the
    filesystem (a finite map from paths to nodes) together with a trace of
    the observable actions the routine performs (stdout lines, network
    fetches, filesystem calls, child processes).  The collaborators outside
    the repository (the HTTP transport, the zip crate, the child process)
    are the fields of a record [ext] that every run receives. *)

From Stdlib Require Import Ascii.
From stdpp Require Import base gmap list strings.

(** ** Data model *)

(** A path is its list of components; the working directory of the build
    script is the empty path. *)
Abbreviation path := (list string).

Definition join (p : path) (s : string) : path := p ++ [s].

Inductive node :=
| File (contents : list Byte.byte)
| Dir.

#[global] Instance byte_eq_dec : EqDecision Byte.byte := Byte.byte_eq_dec.
#[global] Instance node_eq_dec : EqDecision node.
Proof. solve_decision. Defined.

Abbreviation fsys := (gmap (list string) node).

(** [std::process::Stdio] as used by the script; [ParentStderr] is the
    [Stdio] made from [io::stderr()]. *)
Inductive stdio := Inherit | Null | Piped | ParentStderr.

(** [std::process::Command]: program, working directory, arguments and the
    three standard streams. *)
Record command := mk_command {
  cmd_program : string;
  cmd_current_dir : option path;
  cmd_args : list string;
  cmd_stdin : stdio;
  cmd_stdout : stdio;
  cmd_stderr : stdio;
}.

Definition Command_new (prog : string) : command :=
  mk_command prog None [] Inherit Inherit Inherit.
Definition Command_current_dir (d : path) (c : command) : command :=
  mk_command (cmd_program c) (Some d) (cmd_args c)
    (cmd_stdin c) (cmd_stdout c) (cmd_stderr c).
Definition Command_arg (a : string) (c : command) : command :=
  mk_command (cmd_program c) (cmd_current_dir c) (cmd_args c ++ [a])
    (cmd_stdin c) (cmd_stdout c) (cmd_stderr c).
Definition Command_stdin (s : stdio) (c : command) : command :=
  mk_command (cmd_program c) (cmd_current_dir c) (cmd_args c)
    s (cmd_stdout c) (cmd_stderr c).
Definition Command_stdout (s : stdio) (c : command) : command :=
  mk_command (cmd_program c) (cmd_current_dir c) (cmd_args c)
    (cmd_stdin c) s (cmd_stderr c).
Definition Command_stderr (s : stdio) (c : command) : command :=
  mk_command (cmd_program c) (cmd_current_dir c) (cmd_args c)
    (cmd_stdin c) (cmd_stdout c) s.

(** [std::process::ExitStatus] on a Unix host: a normal exit with a code,
    or termination by a signal. *)
Inductive exit_status := Exited (code : Z) | Signaled (signal : Z).

Definition ExitStatus_success (s : exit_status) : bool :=
  match s with Exited 0 => true | _ => false end.

(** An HTTP response as the script sees it: a status code and a body. *)
Record response := mk_response { resp_status : Z; resp_body : list Byte.byte }.

(** The build configuration the script reads from its environment:
    [DO_IT] and [DOCS_RS] are present or not, [TARGET] is the Rust triple,
    [CARGO_CFG_WINDOWS] tells whether the target is Windows, [host_windows]
    is the compile-time [cfg!(windows)] of the build script itself,
    [OUT_DIR] is the output directory, and the package version. *)
Record config := mk_config {
  do_it : bool;
  docs_rs_set : bool;
  target : string;
  cargo_cfg_windows : bool;
  host_windows : bool;
  out_dir : path;
  version_major : nat;
  version_minor : nat;
  version_patch : nat;
}.

(** The collaborators outside the repository.
    - [http_get url] is [reqwest::blocking::get]: [None] is a transport
      error, otherwise the response.
    - [zip_extract bytes] is [ZipArchive::new] followed by
      [extract_unwrapped_root_dir] with [root_dir_common_filter]: [None] when
      the archive is unreadable, otherwise the entries of the archive with
      their common root directory stripped.
    - [run_child cmd fs] is [Command::status]: [None] when the child cannot
      be spawned, otherwise its exit status and the filesystem it leaves. *)
Record ext := mk_ext {
  http_get : string -> option response;
  zip_extract : list Byte.byte -> option (list (path * node));
  run_child : command -> fsys -> option (exit_status * fsys);
}.

(** Errors surfaced as [Box<dyn Error>]: those of the libraries, and the
    [String] messages the script formats itself ([ErrMsg]). *)
Inductive err :=
| ErrIo (op : string) (p : path)
| ErrTransport (url : string)
| ErrHttpStatus (status : Z)
| ErrZip
| ErrSpawn (c : command)
| ErrMsg (msg : string).

(** The observable actions of a run. *)
Inductive event :=
| EvStdout (line : string)
| EvFetch (url : string)
| EvCreate (p : path)
| EvWrite (p : path)
| EvOpen (p : path)
| EvExtract (dest : path)
| EvRemoveFile (p : path)
| EvCreateDirAll (p : path)
| EvSpawn (c : command)
| EvExit (s : exit_status)
| EvRename (src dst : path).

(** ** The monad: state is the filesystem and the trace *)

Record st := mk_st { st_fs : fsys; st_trace : list event }.

Inductive outcome (A : Type) := Ok (a : A) | Err (e : err).
Arguments Ok {A} a.
Arguments Err {A} e.

Definition M (A : Type) := st -> outcome A * st.

Definition ret {A} (a : A) : M A := fun s => (Ok a, s).
Definition throw {A} (e : err) : M A := fun s => (Err e, s).
Definition bind {A B} (m : M A) (k : A -> M B) : M B :=
  fun s => match m s with
           | (Ok a, s') => k a s'
           | (Err e, s') => (Err e, s')
           end.

(** [m ?; k] is Rust's [m?; k]. *)
Notation "'let?' x := m 'in' k" := (bind m (fun x => k))
  (at level 200, x name, m at level 100, k at level 200).
Notation "m ?; k" := (bind m (fun _ => k))
  (at level 100, right associativity).

Definition log (e : event) : M unit :=
  fun s => (Ok tt, mk_st (st_fs s) (st_trace s ++ [e])).
Definition get_fs : M fsys := fun s => (Ok (st_fs s), s).
Definition put_fs (f : fsys) : M unit :=
  fun s => (Ok tt, mk_st f (st_trace s)).

(** ** Filesystem calls ([std::fs] through [fs_err]) *)

(** The parent of a path is a directory; the working directory is one. *)
Definition parent_is_dir (f : fsys) (p : path) : bool :=
  match p with
  | [] => false
  | _ => match removelast p with
         | [] => true
         | q => bool_decide (f !! q = Some Dir)
         end
  end.

(** [fs::exists]. *)
Definition fs_exists (p : path) : M bool :=
  let? f := get_fs in ret (bool_decide (is_Some (f !! p))).

(** [File::create]: creates or truncates a file. *)
Definition file_create (p : path) : M unit :=
  log (EvCreate p) ?;
  let? f := get_fs in
  if bool_decide (f !! p = Some Dir) || negb (parent_is_dir f p)
  then throw (ErrIo "create" p)
  else put_fs (<[p := File []]> f).

(** Writing bytes to an open file (what [Response::copy_to] does with the
    body). *)
Definition file_write_all (p : path) (b : list Byte.byte) : M unit :=
  log (EvWrite p) ?;
  let? f := get_fs in
  match f !! p with
  | Some (File _) => put_fs (<[p := File b]> f)
  | _ => throw (ErrIo "write" p)
  end.

(** [fs::write]: create or truncate, then write. *)
Definition fs_write (p : path) (b : list Byte.byte) : M unit :=
  file_create p ?; file_write_all p b.

(** [File::open] followed by reading the archive. *)
Definition file_open (p : path) : M (list Byte.byte) :=
  log (EvOpen p) ?;
  let? f := get_fs in
  match f !! p with
  | Some (File b) => ret b
  | _ => throw (ErrIo "open" p)
  end.

(** [fs::remove_file]. *)
Definition fs_remove_file (p : path) : M unit :=
  log (EvRemoveFile p) ?;
  let? f := get_fs in
  match f !! p with
  | Some (File _) => put_fs (delete p f)
  | _ => throw (ErrIo "remove_file" p)
  end.

(** [fs::create_dir_all]: every ancestor that is missing is made a
    directory; an ancestor that is a file is an error. *)
Fixpoint mkdirs (f : fsys) (done_ : path) (rest : path) : option fsys :=
  match rest with
  | [] => Some f
  | c :: rest' =>
      let q := done_ ++ [c] in
      match f !! q with
      | Some (File _) => None
      | Some Dir => mkdirs f q rest'
      | None => mkdirs (<[q := Dir]> f) q rest'
      end
  end.

Definition fs_create_dir_all (p : path) : M unit :=
  log (EvCreateDirAll p) ?;
  let? f := get_fs in
  match mkdirs f [] p with
  | Some f' => put_fs f'
  | None => throw (ErrIo "create_dir_all" p)
  end.

(** [fs::rename] with its POSIX meaning: the source must exist, the parent
    of the destination must be a directory, a directory cannot be moved
    inside itself, a file cannot replace a directory nor a directory a
    file, and a directory can only replace an empty directory.  The source
    node and everything below it move to the destination. *)
Definition strictly_below (a b : path) : bool :=
  bool_decide (a `prefix_of` b /\ a <> b).

Definition has_children (f : fsys) (p : path) : bool :=
  existsb (fun kv => strictly_below p kv.1) (map_to_list f).

Definition move_subtree (f : fsys) (src dst : path) : fsys :=
  foldr (fun kv acc => <[dst ++ drop (length src) kv.1 := kv.2]> acc)
    (delete dst (filter (fun kv => ~ src `prefix_of` kv.1) f))
    (filter (fun kv => src `prefix_of` kv.1) (map_to_list f)).

Definition fs_rename (src dst : path) : M unit :=
  log (EvRename src dst) ?;
  let? f := get_fs in
  match f !! src with
  | None => throw (ErrIo "rename" src)
  | Some n =>
      if negb (parent_is_dir f dst) || strictly_below src dst
      then throw (ErrIo "rename" src)
      else match f !! dst, n with
           | Some Dir, File _ | Some (File _), Dir => throw (ErrIo "rename" src)
           | Some Dir, Dir =>
               if has_children f dst then throw (ErrIo "rename" src)
               else put_fs (move_subtree f src dst)
           | _, _ => put_fs (move_subtree f src dst)
           end
  end.

(** ** Collaborators *)

(** [build::rerun_if_env_changed] prints a cargo directive on stdout. *)
Definition rerun_if_env_changed (var : string) : M unit :=
  log (EvStdout ("cargo:rerun-if-env-changed=" ++ var)%string).

(** [reqwest::blocking::get]. *)
Definition reqwest_get (x : ext) (url : string) : M response :=
  log (EvFetch url) ?;
  match http_get x url with
  | Some r => ret r
  | None => throw (ErrTransport url)
  end.

(** [Response::error_for_status]: a client error (4xx) or server error
    (5xx) status becomes an error; any other status passes. *)
Definition error_for_status (r : response) : M response :=
  if bool_decide (400 <= resp_status r < 600)%Z
  then throw (ErrHttpStatus (resp_status r))
  else ret r.

(** [ZipArchive::new] then [extract_unwrapped_root_dir dest
    root_dir_common_filter]: the destination directory is created and the
    stripped entries are written below it. *)
Definition extract_unwrapped_root_dir (x : ext) (b : list Byte.byte) (dest : path)
    : M unit :=
  log (EvExtract dest) ?;
  match zip_extract x b with
  | None => throw ErrZip
  | Some entries =>
      fs_create_dir_all dest ?;
      let? f := get_fs in
      put_fs (foldr (fun e acc => <[dest ++ e.1 := e.2]> acc) f entries)
  end.

(** [Command::status]: spawn, wait, and take the exit status. *)
Definition Command_status (x : ext) (c : command) : M exit_status :=
  log (EvSpawn c) ?;
  let? f := get_fs in
  match run_child x c f with
  | None => throw (ErrSpawn c)
  | Some (s, f') => put_fs f' ?; log (EvExit s) ?; ret s
  end.

(** ** Formatting *)

Fixpoint digits (fuel n : nat) (acc : string) : string :=
  match fuel with
  | 0 => acc
  | S fuel' =>
      let acc' := String (ascii_of_nat (48 + n mod 10)) acc in
      if n <? 10 then acc' else digits fuel' (n / 10) acc'
  end.

(** [Display] of an unsigned integer. *)
Definition string_of_nat (n : nat) : string := digits (S n) n "".

(** [Display] of a signed integer. *)
Definition string_of_Z (z : Z) : string :=
  if (z <? 0)%Z then ("-" ++ string_of_nat (Z.to_nat (- z)))%string
  else string_of_nat (Z.to_nat z).

Definition dquote : string := String (ascii_of_nat 34) EmptyString.

(** [Debug] of a string without characters that need escaping. *)
Definition debug_string (s : string) : string := (dquote ++ s ++ dquote)%string.

(** [Display] of a relative path. *)
Fixpoint display_path (p : path) : string :=
  match p with
  | [] => ""
  | [c] => c
  | c :: p' => (c ++ "/" ++ display_path p')%string
  end.

(** [Debug] of a Unix [Command]: the working directory as a [cd], then the
    program and its arguments, each quoted. *)
Definition command_debug (c : command) : string :=
  let cd := match cmd_current_dir c with
            | Some d => ("cd " ++ debug_string (display_path d) ++ " && ")%string
            | None => ""
            end in
  (cd ++ debug_string (cmd_program c)
      ++ String.concat "" (map (fun a => " " ++ debug_string a)%string (cmd_args c)))%string.

(** [Display] of a Unix [ExitStatus]. *)
Definition exit_status_display (s : exit_status) : string :=
  match s with
  | Exited code => ("exit status: " ++ string_of_Z code)%string
  | Signaled sig => ("signal: " ++ string_of_Z sig)%string
  end.

(** ** The script *)

Definition docs_rs (c : config) : bool := docs_rs_set c.

Definition zig_bootstrap : path := ["zig-bootstrap"].
Definition zig_bootstrap_zip : path := ["zig-bootstrap.zip"].

(** The binary name chosen by the target's [cargo_cfg_windows]. *)
Definition zig_bin_name (c : config) : string :=
  if cargo_cfg_windows c then "zig.exe" else "zig".

(** The entrypoint script chosen by the host's [cfg!(windows)]. *)
Definition build_script (c : config) : string :=
  if host_windows c then "./build.bat" else "./build".

Definition archive_url (c : config) : string :=
  ("https://github.com/ziglang/zig-bootstrap/archive/refs/tags/"
     ++ string_of_nat (version_major c) ++ "."
     ++ string_of_nat (version_minor c) ++ "."
     ++ string_of_nat (version_patch c) ++ ".zip")%string.

(** [zig_target_mcpu_for_build_target], with [build::target()] as its
    argument. *)
Definition zig_target_mcpu_for_build_target (target : string)
    : option (string * string) :=
  if String.eqb target "aarch64-apple-darwin"
  then Some ("aarch64-macos-none", "baseline")
  else if String.eqb target "x86_64-unknown-linux-gnu"
  then Some ("x86_64-linux-gnu", "baseline")
  else if String.eqb target "x86_64-pc-windows-gnu"
  then Some ("x86_64-windows-gnu", "baseline")
  else None.

(** Lines 58-77: download the tagged archive, extract it, remove it. *)
Definition fetch_and_extract (x : ext) (c : config) : M unit :=
  let? response := reqwest_get x (archive_url c) in
  let? response := error_for_status response in
  file_create zig_bootstrap_zip ?;
  file_write_all zig_bootstrap_zip (resp_body response) ?;
  let? bytes := file_open zig_bootstrap_zip in
  extract_unwrapped_root_dir x bytes zig_bootstrap ?;
  fs_remove_file zig_bootstrap_zip.

(** Lines 57-78: [if !docs_rs() && !fs::exists("zig-bootstrap")? { .. }]. *)
Definition acquire_source (x : ext) (c : config) : M unit :=
  if docs_rs c then ret tt
  else let? e := fs_exists zig_bootstrap in
       if e then ret tt else fetch_and_extract x c.

(** Lines 93-103. *)
Definition build_command (c : config) (zig_target zig_mcpu : string) : command :=
  Command_stderr ParentStderr
    (Command_stdout ParentStderr
       (Command_stdin Null
          (Command_arg zig_mcpu
             (Command_arg zig_target
                (Command_current_dir zig_bootstrap
                   (Command_new (build_script c))))))).

Definition zig_out_dir (zig_target zig_mcpu : string) : path :=
  join (join zig_bootstrap "out") ("zig-" ++ zig_target ++ "-" ++ zig_mcpu)%string.

Definition subprocess_failed_msg (cmd : command) (s : exit_status) : string :=
  ("zig-bootstrap " ++ command_debug cmd ++ " failed: " ++ exit_status_display s)%string.

(** Lines 80-124. *)
Definition build_and_relocate (x : ext) (c : config) : M unit :=
  if docs_rs c then
    fs_write (join (out_dir c) (zig_bin_name c)) [] ?;
    fs_create_dir_all (join (out_dir c) "lib")
  else
    match zig_target_mcpu_for_build_target (target c) with
    | None => throw (ErrMsg ("unmapped target: " ++ target c)%string)
    | Some (zig_target, zig_mcpu) =>
        let cmd := build_command c zig_target zig_mcpu in
        let? status := Command_status x cmd in
        if negb (ExitStatus_success status)
        then throw (ErrMsg (subprocess_failed_msg cmd status))
        else
          let d := zig_out_dir zig_target zig_mcpu in
          fs_rename (join d (zig_bin_name c)) (join (out_dir c) (zig_bin_name c)) ?;
          fs_rename (join d "lib") (join (out_dir c) "lib")
    end.

(** [main]. *)
Definition main (x : ext) (c : config) : M unit :=
  rerun_if_env_changed "DO_IT" ?;
  if negb (do_it c) then ret tt
  else acquire_source x c ?;
       build_and_relocate x c ?;
       ret tt.

Definition run (x : ext) (c : config) (f : fsys) : outcome unit * st :=
  main x c (mk_st f []).

(** ** Specifications of the stages *)

(** [s] contains [t]. *)
Definition str_contains (s t : string) : Prop :=
  exists pre post, s = (pre ++ t ++ post)%string.

(** The events of documentation mode. *)
Definition placeholder_event (e : event) : Prop :=
  match e with
  | EvCreate _ | EvWrite _ | EvCreateDirAll _ => True
  | _ => False
  end.

(** The possible traces [l] and outcomes [r] of [build_and_relocate]. *)
Definition build_stage_spec (c : config) (l : list event) (r : outcome unit) : Prop :=
  if docs_rs c then Forall placeholder_event l
  else match zig_target_mcpu_for_build_target (target c) with
  | None => l = [] /\ r = Err (ErrMsg ("unmapped target: " ++ target c)%string)
  | Some (zt, zm) =>
      let cmd := build_command c zt zm in
      let d := zig_out_dir zt zm in
      let src1 := join d (zig_bin_name c) in
      let dst1 := join (out_dir c) (zig_bin_name c) in
      let src2 := join d "lib" in
      let dst2 := join (out_dir c) "lib" in
      (l = [EvSpawn cmd] /\ r = Err (ErrSpawn cmd)) \/
      (exists status,
         (ExitStatus_success status = false /\ l = [EvSpawn cmd; EvExit status] /\
          r = Err (ErrMsg (subprocess_failed_msg cmd status))) \/
         (ExitStatus_success status = true /\
          exists s1,
            (fst (fs_rename src1 dst1 s1) <> Ok tt /\
             l = [EvSpawn cmd; EvExit status; EvRename src1 dst1] /\
             r = fst (fs_rename src1 dst1 s1)) \/
            (fst (fs_rename src1 dst1 s1) = Ok tt /\
             exists s2,
               l = [EvSpawn cmd; EvExit status; EvRename src1 dst1; EvRename src2 dst2] /\
               r = fst (fs_rename src2 dst2 s2))))
  end.

(** The actions of a download, in the order [main] performs them. *)
Definition acquisition_steps (c : config) : list event :=
  [EvFetch (archive_url c); EvCreate zig_bootstrap_zip; EvWrite zig_bootstrap_zip;
   EvOpen zig_bootstrap_zip; EvExtract zig_bootstrap; EvCreateDirAll zig_bootstrap;
   EvRemoveFile zig_bootstrap_zip].

(** ** Concrete inputs *)

Definition sample_body : list Byte.byte := [Byte.x50; Byte.x4b; Byte.x03; Byte.x04].

Definition sample_entries : list (path * node) :=
  [(["build"], File []); (["README.md"], File [])].

(** What [./build <target> <mcpu>] leaves behind in a successful build. *)
Definition child_outputs (c : command) (f : fsys) : fsys :=
  match cmd_args c with
  | [zt; zm] =>
      let d := zig_out_dir zt zm in
      <[join d "lib" := Dir]> (<[join d "zig.exe" := File []]>
        (<[join d "zig" := File []]> (<[d := Dir]>
          (<[join zig_bootstrap "out" := Dir]> f))))
  | _ => f
  end.

(** A world where the server answers with [status], the archive is readable
    when [zip_ok], and the child exits with [code]. *)
Definition sample_ext (status : Z) (zip_ok : bool) (code : Z) : ext :=
  mk_ext (fun _ => Some (mk_response status sample_body))
    (fun _ => if zip_ok then Some sample_entries else None)
    (fun c f => Some (Exited code, child_outputs c f)).

Definition sample_config (gate docs : bool) (triple : string)
    (host_win target_win : bool) : config :=
  mk_config gate docs triple target_win host_win ["out"] 0 14 1.

(** A Unix host building for a Windows target. *)
Definition cross_to_windows : config :=
  sample_config true false "x86_64-pc-windows-gnu" false true.

(** A native Linux build with the gate open. *)
Definition linux_native : config :=
  sample_config true false "x86_64-unknown-linux-gnu" false false.

(** A world without network access in which no child can be spawned. *)
Definition offline_ext : ext :=
  mk_ext (fun _ => None) (fun _ => None) (fun _ _ => None).

(** A checkout with only the output directory. *)
Definition fs_out : fsys := <[["out"] := Dir]> ∅.

(** A checkout where the source tree is already present. *)
Definition fs_tree : fsys := <[zig_bootstrap := Dir]> fs_out.

(** ** Reasoning about traces *)

(** [emits P m]: whatever state [m] starts in, it only appends events
    satisfying [P] to the trace. *)
Definition emits (P : event -> Prop) {A} (m : M A) : Prop :=
  forall s, exists l, st_trace (snd (m s)) = st_trace s ++ l /\ Forall P l.

Lemma emits_ret P {A} (a : A) : emits P (ret a).
Proof. intros s. exists []. split; [by rewrite app_nil_r | constructor]. Qed.

Lemma emits_throw P {A} e : emits P (@throw A e).
Proof. intros s. exists []. split; [by rewrite app_nil_r | constructor]. Qed.

Lemma emits_get_fs P : emits P get_fs.
Proof. intros s. exists []. split; [by rewrite app_nil_r | constructor]. Qed.

Lemma emits_put_fs P f : emits P (put_fs f).
Proof. intros s. exists []. split; [by rewrite app_nil_r | constructor]. Qed.

Lemma emits_log (P : event -> Prop) e : P e -> emits P (log e).
Proof. intros HP s. exists [e]. split; [done | by constructor]. Qed.

Lemma emits_bind P {A B} (m : M A) (k : A -> M B) :
  emits P m -> (forall a, emits P (k a)) -> emits P (bind m k).
Proof.
  intros Hm Hk s. unfold bind.
  destruct (Hm s) as [l1 [E1 F1]].
  destruct (m s) as [[a|e] s'] eqn:Ems; simpl in *.
  - destruct (Hk a s') as [l2 [E2 F2]]. exists (l1 ++ l2).
    rewrite E2, E1, app_assoc. split; [done | by apply Forall_app].
  - by exists l1.
Qed.

Create HintDb emits_db.
#[global] Hint Resolve emits_ret emits_throw emits_get_fs emits_put_fs emits_log
  emits_bind : emits_db.

Ltac emits_step :=
  match goal with
  | |- emits _ (bind _ _) => apply emits_bind; [| intros ?]
  | |- emits _ (ret _) => apply emits_ret
  | |- emits _ (throw _) => apply emits_throw
  | |- emits _ get_fs => apply emits_get_fs
  | |- emits _ (put_fs _) => apply emits_put_fs
  | |- emits _ (log _) => apply emits_log
  | |- emits _ _ => case_match
  end.

Ltac emits_tac := repeat (emits_step || assumption || done).

Section Emits.
Variable P : event -> Prop.

Lemma emits_file_create p : P (EvCreate p) -> emits P (file_create p).
Proof. intros. unfold file_create. emits_tac. Qed.

Lemma emits_file_write_all p b : P (EvWrite p) -> emits P (file_write_all p b).
Proof. intros. unfold file_write_all. emits_tac. Qed.

Lemma emits_fs_write p b :
  P (EvCreate p) -> P (EvWrite p) -> emits P (fs_write p b).
Proof.
  intros. unfold fs_write. apply emits_bind; intros;
    [by apply emits_file_create | by apply emits_file_write_all].
Qed.

Lemma emits_file_open p : P (EvOpen p) -> emits P (file_open p).
Proof. intros. unfold file_open. emits_tac. Qed.

Lemma emits_fs_remove_file p : P (EvRemoveFile p) -> emits P (fs_remove_file p).
Proof. intros. unfold fs_remove_file. emits_tac. Qed.

Lemma emits_fs_create_dir_all p :
  P (EvCreateDirAll p) -> emits P (fs_create_dir_all p).
Proof. intros. unfold fs_create_dir_all. emits_tac. Qed.

Lemma emits_fs_rename src dst : P (EvRename src dst) -> emits P (fs_rename src dst).
Proof. intros. unfold fs_rename. emits_tac. Qed.

Lemma emits_reqwest_get x url : P (EvFetch url) -> emits P (reqwest_get x url).
Proof. intros. unfold reqwest_get. emits_tac. Qed.

Lemma emits_error_for_status r : emits P (error_for_status r).
Proof. unfold error_for_status. emits_tac. Qed.

Lemma emits_extract x b dest :
  P (EvExtract dest) -> P (EvCreateDirAll dest) ->
  emits P (extract_unwrapped_root_dir x b dest).
Proof.
  intros. unfold extract_unwrapped_root_dir. emits_tac.
  by apply emits_fs_create_dir_all.
Qed.

End Emits.

(** The events of the acquisition stage. *)
Definition acquisition_event (e : event) : Prop :=
  match e with
  | EvFetch _ | EvCreate _ | EvWrite _ | EvOpen _ | EvExtract _
  | EvRemoveFile _ | EvCreateDirAll _ => True
  | _ => False
  end.

Lemma emits_acquire_source x c : emits acquisition_event (acquire_source x c).
Proof.
  unfold acquire_source, fetch_and_extract, fs_exists.
  repeat (emits_step || done);
    first [ apply emits_reqwest_get | apply emits_error_for_status
          | apply emits_file_create | apply emits_file_write_all
          | apply emits_file_open | apply emits_extract
          | apply emits_fs_remove_file ]; done.
Qed.

(** ** Auxiliary lemmas *)

Lemma foldr_insert_is_Some {X} (g : X -> path) (h : X -> node) (f : fsys) k l :
  is_Some (f !! k) ->
  is_Some (foldr (fun e acc => <[g e := h e]> acc) f l !! k).
Proof.
  intros Hk. induction l as [|e l IH]; simpl; [done|].
  destruct (decide (g e = k)) as [<-|Hne].
  - rewrite lookup_insert_eq. eauto.
  - by rewrite lookup_insert_ne.
Qed.

(** A successful download-and-extract leaves the source tree in place. *)
Lemma fetch_and_extract_creates_tree x c s s1 :
  st_fs s !! zig_bootstrap = None ->
  fetch_and_extract x c s = (Ok tt, s1) ->
  is_Some (st_fs s1 !! zig_bootstrap).
Proof.
  intros Habs. destruct s as [f tr].
  unfold fetch_and_extract, reqwest_get, error_for_status, file_create,
    file_write_all, file_open, extract_unwrapped_root_dir, fs_create_dir_all,
    fs_remove_file, bind, log, get_fs, put_fs, ret, throw; simpl.
  intros H. repeat (case_match; simplify_eq/=).
  all: rewrite lookup_delete_ne; [|done].
  all: apply foldr_insert_is_Some.
  all: first [by rewrite lookup_insert_eq | eexists; eassumption].
Qed.

(** [fs::create_dir_all] succeeds when no ancestor is a file; it makes
    the path a directory and touches nothing but its ancestors. *)
Lemma mkdirs_spec rest : forall (f : fsys) d,
  (forall k b, 1 <= k <= length rest -> f !! (d ++ take k rest) <> Some (File b)) ->
  exists f', mkdirs f d rest = Some f' /\
    (rest <> [] -> f' !! (d ++ rest) = Some Dir) /\
    (forall p, (forall k, 1 <= k <= length rest -> p <> d ++ take k rest) ->
               f' !! p = f !! p).
Proof.
  induction rest as [|a rest IH]; intros f d Hok.
  - exists f. split; [done|]. split; [done|]. done.
  - assert (Hq : forall b, f !! (d ++ [a]) <> Some (File b)).
    { intros b. apply (Hok 1 b). simpl. lia. }
    assert (Hshift : forall k, d ++ take (S k) (a :: rest) = (d ++ [a]) ++ take k rest).
    { intros k. simpl. by rewrite <- app_assoc. }
    simpl. destruct (f !! (d ++ [a])) as [[b|]|] eqn:Ea.
    + by destruct (Hq b).
    + destruct (IH f (d ++ [a])) as (f' & Hm & Hdir & Hfr).
      { intros k b Hk. rewrite <- Hshift. apply Hok. simpl. lia. }
      exists f'. split; [done|]. split.
      * intros _. destruct rest as [|a' rest'].
        -- simpl in Hm. simplify_eq. by rewrite ?app_nil_r.
        -- rewrite <- app_assoc in Hdir. by apply Hdir.
      * intros p Hp. apply Hfr. intros k Hk. rewrite <- Hshift. apply Hp. simpl. lia.
    + destruct (IH (<[d ++ [a] := Dir]> f) (d ++ [a])) as (f' & Hm & Hdir & Hfr).
      { intros k b Hk. rewrite lookup_insert_ne.
        - rewrite <- Hshift. apply Hok. simpl. lia.
        - intros Heq. apply (f_equal length) in Heq.
          rewrite !length_app, length_take in Heq. simpl in Heq. lia. }
      exists f'. split; [done|]. split.
      * intros _. destruct rest as [|a' rest'].
        -- simpl in Hm. simplify_eq. rewrite ?app_nil_r. by rewrite lookup_insert_eq.
        -- rewrite <- app_assoc in Hdir. by apply Hdir.
      * intros p Hp. rewrite Hfr.
        -- rewrite lookup_insert_ne; [done|]. intros <-. apply (Hp 1); [simpl; lia|done].
        -- intros k Hk. rewrite <- Hshift. apply Hp. simpl. lia.
Qed.

Lemma string_app_assoc (a b d : string) :
  (a ++ b ++ d)%string = ((a ++ b) ++ d)%string.
Proof. induction a as [|ch a IH]; [reflexivity|]. exact (f_equal (String ch) IH). Qed.

Lemma emits_placeholders x c :
  docs_rs c = true -> emits placeholder_event (build_and_relocate x c).
Proof.
  intros Hd. unfold build_and_relocate. rewrite Hd.
  apply emits_bind; intros; [by apply emits_fs_write | by apply emits_fs_create_dir_all].
Qed.

Lemma fs_rename_result src dst s :
  (exists f', fs_rename src dst s =
    (Ok tt, mk_st f' (st_trace s ++ [EvRename src dst]))) \/
  fs_rename src dst s = (Err (ErrIo "rename" src), mk_st (st_fs s) (st_trace s ++ [EvRename src dst])).
Proof.
  unfold fs_rename, bind, log, get_fs, put_fs, ret, throw. simpl.
  repeat case_match; eauto.
Qed.

(** The trace and outcome of the building stage. *)
Lemma build_and_relocate_spec x c s :
  exists l, st_trace (snd (build_and_relocate x c s)) = st_trace s ++ l /\
            build_stage_spec c l (fst (build_and_relocate x c s)).
Proof.
  unfold build_stage_spec. destruct (docs_rs c) eqn:Hd.
  { by apply emits_placeholders. }
  unfold build_and_relocate. rewrite Hd.
  destruct (zig_target_mcpu_for_build_target (target c)) as [[zt zm]|].
  2: { exists []. by rewrite app_nil_r. }
  unfold Command_status, bind, log, get_fs, put_fs, ret, throw. simpl.
  destruct (run_child x _ _) as [[status f']|]; simpl.
  2: { eexists. split; [done|]. by left. }
  destruct (ExitStatus_success status) eqn:Hs; simpl.
  2: { eexists. split; [by rewrite <- app_assoc|]. right. exists status. by left. }
  lazymatch goal with |- context [fs_rename ?a ?b ?s0] => set (s1 := s0) end.
  destruct (fs_rename_result (join (zig_out_dir zt zm) (zig_bin_name c))
              (join (out_dir c) (zig_bin_name c)) s1) as [[f1 E1] | E1];
    rewrite E1; simpl.
  - lazymatch goal with |- context [fs_rename ?a ?b ?s0] => set (s2 := s0) end.
    destruct (fs_rename_result (join (zig_out_dir zt zm) "lib")
                (join (out_dir c) "lib") s2) as [[f2 E2] | E2];
      rewrite E2; simpl.
    all: eexists; split; [by rewrite <- !app_assoc|].
    all: right; exists status; right; split; [done|]; exists s1; rewrite E1; simpl.
    all: right; split; [done|]; exists s2; rewrite E2; done.
  - eexists. split; [by rewrite <- !app_assoc|].
    right. exists status. right. split; [done|]. exists s1. rewrite E1. simpl.
    left. done.
Qed.

(** The trace and outcome of a whole run. *)
Lemma run_shape x c f :
  (do_it c = false /\ run x c f = (Ok tt, mk_st f [EvStdout "cargo:rerun-if-env-changed=DO_IT"])) \/
  (do_it c = true /\ exists la, Forall acquisition_event la /\
     ((exists e, fst (run x c f) = Err e /\
        st_trace (snd (run x c f)) = EvStdout "cargo:rerun-if-env-changed=DO_IT" :: la) \/
      (exists lb, st_trace (snd (run x c f)) = EvStdout "cargo:rerun-if-env-changed=DO_IT" :: la ++ lb /\
        build_stage_spec c lb (fst (run x c f))))).
Proof.
  destruct (do_it c) eqn:Hg.
  2: { left. split; [done|]. unfold run, main, rerun_if_env_changed, bind, log. simpl. by rewrite Hg. }
  right. split; [done|].
  set (s0 := mk_st f [EvStdout "cargo:rerun-if-env-changed=DO_IT"]).
  assert (Hrun : run x c f =
    bind (acquire_source x c) (fun _ => bind (build_and_relocate x c) (fun _ => ret tt)) s0).
  { unfold run, main, rerun_if_env_changed, bind at 1, log. simpl. by rewrite Hg. }
  rewrite Hrun. unfold bind.
  destruct (emits_acquire_source x c s0) as [la [Ea Fa]].
  exists la. split; [done|].
  destruct (acquire_source x c s0) as [[u|e] s1]; simpl in *.
  - right. destruct (build_and_relocate_spec x c s1) as [lb [Eb Sb]].
    destruct (build_and_relocate x c s1) as [[v|e] s2]; simpl in *;
      exists lb; rewrite Eb, Ea; split; try done; by destruct v.
  - left. exists e. split; [done|]. by rewrite Ea.
Qed.

(** An event of the trace that neither the gate nor the acquisition stage
    emits comes from the building stage. *)
Lemma run_build_event x c f e
    (Hin : In e (st_trace (snd (run x c f))))
    (Hacq : ~ acquisition_event e) (Hout : forall line, e <> EvStdout line) :
  do_it c = true /\
  exists la lb, Forall acquisition_event la /\
    st_trace (snd (run x c f)) = EvStdout "cargo:rerun-if-env-changed=DO_IT" :: la ++ lb /\
    build_stage_spec c lb (fst (run x c f)) /\ In e lb.
Proof.
  destruct (run_shape x c f) as [[_ E] | [Hg [la [Fa [[err [_ E]] | [lb [E Hs]]]]]]].
  - rewrite E in Hin. simpl in Hin. destruct Hin as [<- | []]. by destruct (Hout _ eq_refl).
  - rewrite E in Hin. destruct Hin as [<- | Hin]; [by destruct (Hout _ eq_refl)|].
    rewrite List.Forall_forall in Fa. by destruct (Hacq (Fa _ Hin)).
  - split; [done|]. exists la, lb. split; [done|]. split; [done|]. split; [done|].
    rewrite E in Hin. destruct Hin as [<- | Hin]; [by destruct (Hout _ eq_refl)|].
    apply in_app_or in Hin as [Hin | Hin]; [|done].
    rewrite List.Forall_forall in Fa. by destruct (Hacq (Fa _ Hin)).
Qed.

Lemma trace_in_build_part tr la lb e :
  tr = EvStdout "cargo:rerun-if-env-changed=DO_IT" :: la ++ lb ->
  Forall acquisition_event la -> In e tr ->
  ~ acquisition_event e -> (forall line, e <> EvStdout line) -> In e lb.
Proof.
  intros -> Fa Hin Hacq Hout.
  destruct Hin as [<- | Hin]; [by destruct (Hout _ eq_refl)|].
  apply in_app_or in Hin as [Hin | Hin]; [|done].
  rewrite List.Forall_forall in Fa. by destruct (Hacq (Fa _ Hin)).
Qed.

Lemma string_app_nil_r (a : string) : (a ++ "")%string = a.
Proof. induction a as [|ch a IH]; [reflexivity|]. exact (f_equal (String ch) IH). Qed.

(** Splits [build_stage_spec] for a non-documentation run into its cases. *)
Ltac build_cases Hs :=
  let st := fresh "status" in
  let s1 := fresh "s1" in
  let s2 := fresh "s2" in
  destruct Hs as [[-> ?Hr] | [st [[?Hst [-> ?Hr]] | [?Hst [s1 [[?Hr1 [-> ?Hr]] | [?Hr1 [s2 [-> ?Hr]]]]]]]]].

(** Once the gate is open, a run is the acquisition stage followed, when
    it succeeds, by the building stage. *)
Lemma run_stages x c f (Hgate : do_it c = true) :
  (exists e, fst (acquire_source x c (mk_st f [EvStdout "cargo:rerun-if-env-changed=DO_IT"]))
               = Err e /\
     run x c f = acquire_source x c (mk_st f [EvStdout "cargo:rerun-if-env-changed=DO_IT"])) \/
  (fst (acquire_source x c (mk_st f [EvStdout "cargo:rerun-if-env-changed=DO_IT"])) = Ok tt /\
   run x c f = build_and_relocate x c
                 (snd (acquire_source x c (mk_st f [EvStdout "cargo:rerun-if-env-changed=DO_IT"])))).
Proof.
  assert (Hrun : run x c f =
    bind (acquire_source x c) (fun _ => bind (build_and_relocate x c) (fun _ => ret tt))
      (mk_st f [EvStdout "cargo:rerun-if-env-changed=DO_IT"])).
  { unfold run, main, rerun_if_env_changed, bind at 1, log. simpl. by rewrite Hgate. }
  rewrite Hrun. unfold bind.
  destruct (acquire_source x c _) as [[[]|e] sa]; simpl.
  - right. split; [done|].
    destruct (build_and_relocate x c sa) as [[[]|e'] s']; done.
  - left. by exists e.
Qed.

(** The acquisition stage records no exit status. *)
Lemma acquisition_no_exit x c f status :
  ~ In (EvExit status)
      (st_trace (snd (acquire_source x c (mk_st f [EvStdout "cargo:rerun-if-env-changed=DO_IT"])))).
Proof.
  destruct (emits_acquire_source x c (mk_st f [EvStdout "cargo:rerun-if-env-changed=DO_IT"]))
    as [la [Ea Fa]].
  rewrite Ea. simpl. intros [Hin | Hin]; [discriminate|].
  rewrite List.Forall_forall in Fa. exact (Fa _ Hin).
Qed.

(** ** Claims *)

(** C1: the target mapper is a total function of the triple that returns
    the three pairs of its table and [None] for every other triple. *)
Theorem zig_target_mcpu_table (t : string) :
  (t = "aarch64-apple-darwin" /\
   zig_target_mcpu_for_build_target t = Some ("aarch64-macos-none", "baseline")) \/
  (t = "x86_64-unknown-linux-gnu" /\
   zig_target_mcpu_for_build_target t = Some ("x86_64-linux-gnu", "baseline")) \/
  (t = "x86_64-pc-windows-gnu" /\
   zig_target_mcpu_for_build_target t = Some ("x86_64-windows-gnu", "baseline")) \/
  ((t ∉ ["aarch64-apple-darwin"; "x86_64-unknown-linux-gnu"; "x86_64-pc-windows-gnu"]) /\
   zig_target_mcpu_for_build_target t = None).
Proof.
  unfold zig_target_mcpu_for_build_target.
  destruct (String.eqb_spec t "aarch64-apple-darwin"); [by left|].
  destruct (String.eqb_spec t "x86_64-unknown-linux-gnu"); [by right; left|].
  destruct (String.eqb_spec t "x86_64-pc-windows-gnu"); [by right; right; left|].
  right; right; right. split; [|done].
  rewrite !not_elem_of_cons. repeat split; auto using not_elem_of_nil.
Qed.

(** C7: with [DO_IT] absent the routine succeeds at once; its only action
    is the [cargo:rerun-if-env-changed] line on stdout, and the filesystem
    is untouched. *)
Theorem gate_closed_no_effects x c f (Hgate : do_it c = false) :
  run x c f = (Ok tt, mk_st f [EvStdout "cargo:rerun-if-env-changed=DO_IT"]).
Proof.
  unfold run, main, rerun_if_env_changed, bind, log. simpl.
  by rewrite Hgate.
Qed.

Lemma gate_closed_no_effects_witness :
  do_it (sample_config false true "riscv64gc-unknown-linux-gnu" true true) = false /\
  run (sample_ext 200 true 0) (sample_config false true "riscv64gc-unknown-linux-gnu" true true) fs_out
  = (Ok tt, mk_st fs_out [EvStdout "cargo:rerun-if-env-changed=DO_IT"]).
Proof. split; [reflexivity | apply gate_closed_no_effects; reflexivity]. Defined.

(** C6: when [zig-bootstrap] exists, whatever it is, the acquisition stage
    returns at once without any action; so after a successful acquisition a
    second one is a no-op. *)
Theorem acquire_source_idempotent x c s n
    (Hex : st_fs s !! zig_bootstrap = Some n) :
  acquire_source x c s = (Ok tt, s) /\
  (forall s0 s1, acquire_source x c s0 = (Ok tt, s1) ->
                 acquire_source x c s1 = (Ok tt, s1)).
Proof.
  assert (Hskip : forall s', is_Some (st_fs s' !! zig_bootstrap) ->
                             acquire_source x c s' = (Ok tt, s')).
  { intros s' [n' Hn']. unfold acquire_source, fs_exists, bind, get_fs, ret.
    destruct (docs_rs c); [done|]. simpl. rewrite Hn'. done. }
  split; [apply Hskip; eauto|].
  intros s0 s1 H.
  destruct (docs_rs c) eqn:Hd.
  - unfold acquire_source in *. rewrite Hd in *. done.
  - apply Hskip. unfold acquire_source, fs_exists, bind, get_fs, ret in H.
    rewrite Hd in H. simpl in H.
    destruct (st_fs s0 !! zig_bootstrap) eqn:E0; simpl in H.
    + simplify_eq. eauto.
    + eapply fetch_and_extract_creates_tree; eauto.
Qed.

Lemma acquire_source_idempotent_witness :
  st_fs (mk_st fs_tree []) !! zig_bootstrap = Some Dir /\
  acquire_source (sample_ext 200 true 0)
    (sample_config true false "x86_64-unknown-linux-gnu" false false) (mk_st fs_tree [])
  = (Ok tt, mk_st fs_tree []).
Proof.
  split; [reflexivity|].
  refine (proj1 (acquire_source_idempotent _ _ _ Dir _)). reflexivity.
Defined.

(** C2 (counterexample): when the downloaded archive cannot be extracted
    the error propagates and [zig-bootstrap.zip] stays on disk. *)
Lemma archive_left_after_extract_failure :
  fst (run (sample_ext 200 false 0)
         (sample_config true false "x86_64-unknown-linux-gnu" false false) fs_out)
    = Err ErrZip /\
  st_fs (snd (run (sample_ext 200 false 0)
                (sample_config true false "x86_64-unknown-linux-gnu" false false) fs_out))
    !! zig_bootstrap_zip = Some (File sample_body).
Proof. split; vm_compute; reflexivity. Qed.

(** C2 (amended): a run of the acquisition stage that downloads the archive
    and succeeds has removed [zig-bootstrap.zip] before returning; when the
    downloaded archive cannot be extracted, the stage returns that error
    without reaching the removal, and the archive stays on disk. *)
Theorem acquire_source_archive_cleanup x c s r s1
    (Hdocs : docs_rs c = false) (Habs : st_fs s !! zig_bootstrap = None)
    (Hrun : acquire_source x c s = (r, s1)) :
  (r = Ok tt -> st_fs s1 !! zig_bootstrap_zip = None) /\
  (forall resp, http_get x (archive_url c) = Some resp ->
     ~ (400 <= resp_status resp < 600)%Z ->
     st_fs s !! zig_bootstrap_zip <> Some Dir ->
     zip_extract x (resp_body resp) = None ->
     r = Err ErrZip /\ st_fs s1 !! zig_bootstrap_zip = Some (File (resp_body resp))).
Proof.
  destruct s as [f tr]. simpl in *.
  unfold acquire_source, fs_exists, fetch_and_extract, reqwest_get, error_for_status,
    file_create, file_write_all, file_open, extract_unwrapped_root_dir,
    fs_create_dir_all, fs_remove_file, bind, log, get_fs, put_fs, ret, throw in Hrun.
  rewrite Hdocs in Hrun. simpl in Hrun. rewrite Habs in Hrun. simpl in Hrun.
  split.
  - intros ->. repeat (case_match; simplify_eq/=).
    all: by rewrite lookup_delete_eq.
  - intros resp Hget Hst Hdir Hzip.
    rewrite Hget in Hrun. simpl in Hrun.
    rewrite bool_decide_false in Hrun by done. simpl in Hrun.
    rewrite bool_decide_false in Hrun by done. simpl in Hrun.
    rewrite lookup_insert_eq in Hrun. simpl in Hrun.
    rewrite insert_insert_eq, lookup_insert_eq in Hrun. simpl in Hrun.
    rewrite Hzip in Hrun. simpl in Hrun. simplify_eq/=.
    split; [done|]. by rewrite lookup_insert_eq.
Qed.

Lemma acquire_source_archive_cleanup_witness :
  docs_rs (sample_config true false "x86_64-unknown-linux-gnu" false false) = false /\
  st_fs (mk_st fs_out []) !! zig_bootstrap = None /\
  fst (acquire_source (sample_ext 200 false 0)
         (sample_config true false "x86_64-unknown-linux-gnu" false false)
         (mk_st fs_out [])) = Err ErrZip /\
  st_fs (snd (acquire_source (sample_ext 200 false 0)
         (sample_config true false "x86_64-unknown-linux-gnu" false false)
         (mk_st fs_out []))) !! zig_bootstrap_zip = Some (File sample_body).
Proof.
  split; [reflexivity|]. split; [reflexivity|].
  refine (proj2 (acquire_source_archive_cleanup (sample_ext 200 false 0)
     (sample_config true false "x86_64-unknown-linux-gnu" false false)
     (mk_st fs_out []) _ _ eq_refl eq_refl eq_refl)
     (mk_response 200 sample_body) eq_refl _ _ eq_refl).
  - simpl. lia.
  - vm_compute. discriminate.
Defined.

(** C3 (counterexample): with [DOCS_RS] set but [DO_IT] absent, nothing is
    produced in the output directory. *)
Lemma docs_mode_closed_gate_produces_nothing :
  docs_rs (sample_config false true "x86_64-unknown-linux-gnu" false false) = true /\
  st_fs (snd (run (sample_ext 200 true 0)
                (sample_config false true "x86_64-unknown-linux-gnu" false false) fs_out))
    !! ["out"; "zig"] = None /\
  st_fs (snd (run (sample_ext 200 true 0)
                (sample_config false true "x86_64-unknown-linux-gnu" false false) fs_out))
    !! ["out"; "lib"] = None.
Proof. split; [reflexivity|]. split; vm_compute; reflexivity. Qed.

(** C3 (amended): when [DO_IT] and [DOCS_RS] are both set and the output
    directory is an existing directory (so are its ancestors) in which the
    binary name is not a directory and [lib] is not a file, the routine
    succeeds, leaves an empty binary file and a [lib] directory directly in
    the output directory, and performs no fetch, no extraction and no
    child process, whatever the rest of the filesystem holds. *)
Theorem docs_mode_placeholders x c f
    (Hgate : do_it c = true) (Hdocs : docs_rs c = true)
    (Hout : forall k, 1 <= k <= length (out_dir c) -> f !! take k (out_dir c) = Some Dir)
    (Hbin : f !! join (out_dir c) (zig_bin_name c) <> Some Dir)
    (Hlib : forall b, f !! join (out_dir c) "lib" <> Some (File b)) :
  fst (run x c f) = Ok tt /\
  st_fs (snd (run x c f)) !! join (out_dir c) (zig_bin_name c) = Some (File []) /\
  st_fs (snd (run x c f)) !! join (out_dir c) "lib" = Some Dir /\
  st_trace (snd (run x c f)) =
    [EvStdout "cargo:rerun-if-env-changed=DO_IT";
     EvCreate (join (out_dir c) (zig_bin_name c));
     EvWrite (join (out_dir c) (zig_bin_name c));
     EvCreateDirAll (join (out_dir c) "lib")].
Proof.
  set (o := out_dir c) in *. set (bn := zig_bin_name c) in *.
  assert (Hbn : bn <> "lib").
  { unfold bn, zig_bin_name. by destruct (cargo_cfg_windows c). }
  assert (Hpar : parent_is_dir f (join o bn) = true).
  { unfold parent_is_dir, join. destruct (o ++ [bn]) as [|a l] eqn:E.
    { by destruct o. }
    rewrite <- E, removelast_last. destruct o as [|o1 os] eqn:Eo; [done|].
    apply bool_decide_eq_true. rewrite <- (take_ge (o1 :: os) (length (o1 :: os))) by done.
    apply Hout. simpl. lia. }
  set (f1 := <[join o bn := File []]> (<[join o bn := File []]> f)).
  destruct (mkdirs_spec (join o "lib") f1 []) as (f' & Hm & Hdir & Hfr).
  { intros k b Hk. simpl. unfold join in *. rewrite length_app in Hk. simpl in Hk.
    destruct (decide (k <= length o)).
    - rewrite take_app_le by done. unfold f1. rewrite !lookup_insert_ne.
      + rewrite Hout by lia. done.
      + intros Heq. apply (f_equal length) in Heq.
        rewrite length_take, length_app in Heq. simpl in Heq. lia.
      + intros Heq. apply (f_equal length) in Heq.
        rewrite length_take, length_app in Heq. simpl in Heq. lia.
    - rewrite take_ge by (rewrite length_app; simpl; lia).
      unfold f1. rewrite !lookup_insert_ne; [done| |];
        intros Heq; apply app_inj_tail in Heq as [_ Heq]; by apply Hbn. }
  unfold run, main, rerun_if_env_changed, acquire_source, build_and_relocate,
    fs_write, file_create, file_write_all, fs_create_dir_all,
    bind, log, get_fs, put_fs, ret, throw.
  rewrite Hgate, Hdocs. simpl. fold o bn.
  rewrite bool_decide_false by done. rewrite Hpar. simpl.
  rewrite lookup_insert_eq. simpl. fold f1. rewrite Hm. simpl.
  split; [done|]. split; [|split].
  - rewrite Hfr; [unfold f1; by rewrite lookup_insert_eq|].
    intros k Hk Heq. simpl in Heq. unfold join in *. rewrite length_app in Hk. simpl in Hk.
    destruct (decide (k <= length o)).
    + rewrite take_app_le in Heq by done. apply (f_equal length) in Heq.
      rewrite length_take, length_app in Heq. simpl in Heq. lia.
    + rewrite take_ge in Heq by (rewrite length_app; simpl; lia).
      apply app_inj_tail in Heq as [_ Heq]. by apply Hbn.
  - apply Hdir. unfold join. by destruct o.
  - done.
Qed.

Lemma docs_mode_placeholders_witness :
  fst (run (sample_ext 404 false 1) (sample_config true true "riscv64gc-unknown-linux-gnu" false true) fs_out) = Ok tt /\
  st_fs (snd (run (sample_ext 404 false 1) (sample_config true true "riscv64gc-unknown-linux-gnu" false true) fs_out))
    !! ["out"; "zig.exe"] = Some (File []) /\
  st_fs (snd (run (sample_ext 404 false 1) (sample_config true true "riscv64gc-unknown-linux-gnu" false true) fs_out))
    !! ["out"; "lib"] = Some Dir /\
  st_trace (snd (run (sample_ext 404 false 1) (sample_config true true "riscv64gc-unknown-linux-gnu" false true) fs_out)) =
    [EvStdout "cargo:rerun-if-env-changed=DO_IT";
     EvCreate ["out"; "zig.exe"]; EvWrite ["out"; "zig.exe"];
     EvCreateDirAll ["out"; "lib"]].
Proof.
  apply (docs_mode_placeholders (sample_ext 404 false 1)
           (sample_config true true "riscv64gc-unknown-linux-gnu" false true) fs_out);
    [reflexivity | reflexivity | | vm_compute; discriminate | intros b; vm_compute; discriminate].
  intros k Hk. simpl in Hk. assert (k = 1) as -> by lia. reflexivity.
Defined.

(** C5 (counterexample): a response with status 300 is not a client or
    server error, so [error_for_status] lets it through and the body is
    written to [zig-bootstrap.zip]. *)
Lemma fetch_status_300_writes_archive :
  In (EvCreate zig_bootstrap_zip)
    (st_trace (snd (run (sample_ext 300 false 0)
                      (sample_config true false "x86_64-unknown-linux-gnu" false false) fs_out))) /\
  st_fs (snd (run (sample_ext 300 false 0)
                (sample_config true false "x86_64-unknown-linux-gnu" false false) fs_out))
    !! zig_bootstrap_zip = Some (File sample_body).
Proof.
  split.
  - vm_compute. right. right. left. reflexivity.
  - vm_compute. reflexivity.
Qed.

(** C5 (amended): when the source tree must be fetched and the server
    answers with a client or server error status (4xx or 5xx, such as 404),
    the routine fails with that status right after the fetch: no archive
    file is created and the filesystem is unchanged. *)
Theorem fetch_error_status_leaves_fs x c f resp
    (Hgate : do_it c = true) (Hdocs : docs_rs c = false)
    (Habs : f !! zig_bootstrap = None)
    (Hget : http_get x (archive_url c) = Some resp)
    (Hst : (400 <= resp_status resp < 600)%Z) :
  run x c f = (Err (ErrHttpStatus (resp_status resp)),
               mk_st f [EvStdout "cargo:rerun-if-env-changed=DO_IT";
                        EvFetch (archive_url c)]).
Proof.
  unfold run, main, rerun_if_env_changed, acquire_source, fs_exists,
    fetch_and_extract, reqwest_get, error_for_status,
    bind, log, get_fs, put_fs, ret, throw.
  rewrite Hgate, Hdocs. simpl. rewrite Habs. simpl. rewrite Hget.
  rewrite bool_decide_true by done. reflexivity.
Qed.

Lemma fetch_error_status_leaves_fs_witness :
  run (sample_ext 404 true 0)
    (sample_config true false "x86_64-unknown-linux-gnu" false false) fs_out
  = (Err (ErrHttpStatus 404),
     mk_st fs_out [EvStdout "cargo:rerun-if-env-changed=DO_IT";
                   EvFetch (archive_url (sample_config true false "x86_64-unknown-linux-gnu" false false))]).
Proof.
  apply (fetch_error_status_leaves_fs _ _ _ (mk_response 404 sample_body));
    [reflexivity | reflexivity | reflexivity | reflexivity | simpl; lia].
Defined.

(** C9: every child process the routine starts runs in [zig-bootstrap] with
    exactly the two mapped names as arguments, its standard input closed and
    both its standard output and standard error sent to the script's
    standard error. *)
Theorem spawn_command_wiring x c f cmd
    (Hin : In (EvSpawn cmd) (st_trace (snd (run x c f)))) :
  exists zig_target zig_mcpu,
    zig_target_mcpu_for_build_target (target c) = Some (zig_target, zig_mcpu) /\
    cmd_current_dir cmd = Some zig_bootstrap /\
    cmd_args cmd = [zig_target; zig_mcpu] /\
    cmd_stdin cmd = Null /\
    cmd_stdout cmd = ParentStderr /\
    cmd_stderr cmd = ParentStderr.
Proof.
  destruct (run_build_event x c f (EvSpawn cmd) Hin ltac:(simpl; tauto) ltac:(by intros ? ?))
    as (_ & la & lb & _ & _ & Hs & Hlb).
  unfold build_stage_spec in Hs. destruct (docs_rs c).
  { rewrite List.Forall_forall in Hs. by destruct (Hs _ Hlb). }
  destruct (zig_target_mcpu_for_build_target (target c)) as [[zt zm]|].
  2: { destruct Hs as [-> _]. done. }
  exists zt, zm. split; [done|].
  build_cases Hs; simpl in Hlb; repeat destruct Hlb as [Hlb | Hlb]; simplify_eq; done.
Qed.

Lemma spawn_command_wiring_witness :
  In (EvSpawn (build_command (sample_config true false "aarch64-apple-darwin" false false)
                 "aarch64-macos-none" "baseline"))
     (st_trace (snd (run (sample_ext 200 true 0)
                       (sample_config true false "aarch64-apple-darwin" false false) fs_out))) /\
  exists zig_target zig_mcpu,
    zig_target_mcpu_for_build_target "aarch64-apple-darwin" = Some (zig_target, zig_mcpu) /\
    cmd_current_dir (build_command (sample_config true false "aarch64-apple-darwin" false false)
                 "aarch64-macos-none" "baseline") = Some zig_bootstrap /\
    cmd_args (build_command (sample_config true false "aarch64-apple-darwin" false false)
                 "aarch64-macos-none" "baseline") = [zig_target; zig_mcpu] /\
    cmd_stdin (build_command (sample_config true false "aarch64-apple-darwin" false false)
                 "aarch64-macos-none" "baseline") = Null /\
    cmd_stdout (build_command (sample_config true false "aarch64-apple-darwin" false false)
                 "aarch64-macos-none" "baseline") = ParentStderr /\
    cmd_stderr (build_command (sample_config true false "aarch64-apple-darwin" false false)
                 "aarch64-macos-none" "baseline") = ParentStderr.
Proof.
  assert (H : In (EvSpawn (build_command (sample_config true false "aarch64-apple-darwin" false false)
                 "aarch64-macos-none" "baseline"))
     (st_trace (snd (run (sample_ext 200 true 0)
                       (sample_config true false "aarch64-apple-darwin" false false) fs_out)))).
  { vm_compute. do 8 right. left. reflexivity. }
  split; [exact H|].
  exact (spawn_command_wiring _ _ _ _ H).
Defined.

(** C4: when the child exits with a failure status the routine fails with
    the message [zig-bootstrap <command> failed: <status>], which contains
    the command and the status, and no rename is attempted. *)
Theorem subprocess_failure_fatal x c f cmd status
    (Hspawn : In (EvSpawn cmd) (st_trace (snd (run x c f))))
    (Hexit : In (EvExit status) (st_trace (snd (run x c f))))
    (Hfail : ExitStatus_success status = false) :
  fst (run x c f) = Err (ErrMsg (subprocess_failed_msg cmd status)) /\
  str_contains (subprocess_failed_msg cmd status) (command_debug cmd) /\
  str_contains (subprocess_failed_msg cmd status) (exit_status_display status) /\
  (forall src dst, ~ In (EvRename src dst) (st_trace (snd (run x c f)))).
Proof.
  destruct (run_build_event x c f (EvExit status) Hexit ltac:(simpl; tauto) ltac:(by intros ? ?))
    as (_ & la & lb & Fa & E & Hs & Hlb).
  pose proof (trace_in_build_part _ _ _ _ E Fa Hspawn ltac:(simpl; tauto) ltac:(by intros ? ?))
    as Hsp.
  assert (Hren : forall src dst, In (EvRename src dst) (st_trace (snd (run x c f))) ->
                                 In (EvRename src dst) lb).
  { intros src dst Hr. exact (trace_in_build_part _ _ _ _ E Fa Hr ltac:(simpl; tauto)
                                ltac:(by intros ? ?)). }
  unfold build_stage_spec in Hs. destruct (docs_rs c).
  { rewrite List.Forall_forall in Hs. by destruct (Hs _ Hlb). }
  destruct (zig_target_mcpu_for_build_target (target c)) as [[zt zm]|].
  2: { destruct Hs as [-> _]. done. }
  build_cases Hs; simpl in Hlb, Hsp;
    repeat destruct Hlb as [Hlb | Hlb]; repeat destruct Hsp as [Hsp | Hsp]; simplify_eq.
  all: try contradiction; try congruence.
  split; [done|]. split; [|split].
  - exists "zig-bootstrap "%string, (" failed: " ++ exit_status_display status)%string.
    reflexivity.
  - exists ("zig-bootstrap " ++ command_debug (build_command c zt zm) ++ " failed: ")%string, ""%string.
    unfold subprocess_failed_msg. by rewrite string_app_nil_r, !string_app_assoc.
  - intros src dst Hq. apply Hren in Hq. simpl in Hq. naive_solver.
Qed.

Lemma subprocess_failure_fatal_witness :
  fst (run (sample_ext 200 true 1)
         (sample_config true false "x86_64-unknown-linux-gnu" false false) fs_out)
    = Err (ErrMsg (subprocess_failed_msg
                     (build_command (sample_config true false "x86_64-unknown-linux-gnu" false false)
                        "x86_64-linux-gnu" "baseline") (Exited 1))) /\
  str_contains (subprocess_failed_msg
                  (build_command (sample_config true false "x86_64-unknown-linux-gnu" false false)
                     "x86_64-linux-gnu" "baseline") (Exited 1))
    (command_debug (build_command (sample_config true false "x86_64-unknown-linux-gnu" false false)
                      "x86_64-linux-gnu" "baseline")) /\
  str_contains (subprocess_failed_msg
                  (build_command (sample_config true false "x86_64-unknown-linux-gnu" false false)
                     "x86_64-linux-gnu" "baseline") (Exited 1))
    (exit_status_display (Exited 1)) /\
  (forall src dst, ~ In (EvRename src dst)
     (st_trace (snd (run (sample_ext 200 true 1)
                       (sample_config true false "x86_64-unknown-linux-gnu" false false) fs_out)))).
Proof.
  apply subprocess_failure_fatal; [| | reflexivity].
  - vm_compute. do 8 right. left. reflexivity.
  - vm_compute. do 9 right. left. reflexivity.
Defined.

(** C8: after the child exits successfully, the routine does exactly two
    renames, from [zig-bootstrap/out/zig-<target>-<mcpu>/] into the output
    directory: the binary ([zig.exe] when [cargo_cfg_windows], [zig]
    otherwise) under the same name, then [lib].  The renames act on the
    state the run has reached: the filesystem the child left, after the
    acquisition stage of this run.  A failing first rename ends the run
    with its error and its state; otherwise the run ends exactly as the
    second rename does, so a failure of either is the run's failure. *)
Theorem relocation_after_success x c f status
    (Hexit : In (EvExit status) (st_trace (snd (run x c f))))
    (Hok : ExitStatus_success status = true) :
  exists zig_target zig_mcpu fc,
    zig_target_mcpu_for_build_target (target c) = Some (zig_target, zig_mcpu) /\
    let sa := snd (acquire_source x c (mk_st f [EvStdout "cargo:rerun-if-env-changed=DO_IT"])) in
    let cmd := build_command c zig_target zig_mcpu in
    run_child x cmd (st_fs sa) = Some (status, fc) /\
    let d := join (join zig_bootstrap "out") ("zig-" ++ zig_target ++ "-" ++ zig_mcpu)%string in
    let bin := if cargo_cfg_windows c then "zig.exe" else "zig" in
    let src1 := join d bin in
    let dst1 := join (out_dir c) bin in
    let src2 := join d "lib" in
    let dst2 := join (out_dir c) "lib" in
    let s1 := mk_st fc ((st_trace sa ++ [EvSpawn cmd]) ++ [EvExit status]) in
    (fst (fs_rename src1 dst1 s1) <> Ok tt /\
     st_trace (snd (run x c f)) = st_trace s1 ++ [EvRename src1 dst1] /\
     run x c f = fs_rename src1 dst1 s1) \/
    (fst (fs_rename src1 dst1 s1) = Ok tt /\
     st_trace (snd (run x c f)) = st_trace s1 ++ [EvRename src1 dst1; EvRename src2 dst2] /\
     run x c f = fs_rename src2 dst2 (snd (fs_rename src1 dst1 s1))).
Proof.
  destruct (do_it c) eqn:Hg.
  2: { exfalso. unfold run, main, rerun_if_env_changed, bind, log in Hexit.
       rewrite Hg in Hexit. simpl in Hexit. destruct Hexit as [H | []]. discriminate. }
  pose proof (acquisition_no_exit x c f status) as Hna.
  destruct (run_stages x c f Hg) as [[e [_ Hrun]] | [_ Hrun]].
  { exfalso. rewrite Hrun in Hexit. exact (Hna Hexit). }
  revert Hna Hexit Hrun.
  generalize (snd (acquire_source x c (mk_st f [EvStdout "cargo:rerun-if-env-changed=DO_IT"]))).
  intros sa Hna Hexit Hrun. cbv zeta.
  rewrite Hrun in Hexit |- *.
  destruct (docs_rs c) eqn:Hd.
  { exfalso. destruct (emits_placeholders x c Hd sa) as [l [El Fl]].
    rewrite El in Hexit. apply in_app_or in Hexit as [Hin | Hin]; [exact (Hna Hin)|].
    rewrite List.Forall_forall in Fl. exact (Fl _ Hin). }
  unfold build_and_relocate in Hexit |- *. rewrite Hd in Hexit |- *.
  destruct (zig_target_mcpu_for_build_target (target c)) as [[zt zm]|].
  2: { exfalso. exact (Hna Hexit). }
  unfold Command_status, bind, log, get_fs, put_fs, ret, throw in Hexit |- *. simpl in Hexit |- *.
  destruct (run_child x (build_command c zt zm) (st_fs sa)) as [[st fc]|] eqn:Hc; simpl in Hexit |- *.
  2: { exfalso. apply in_app_or in Hexit as [Hin | [H | []]]; [exact (Hna Hin) | discriminate]. }
  assert (Hst : st = status).
  { clear -Hexit Hna. revert Hexit.
    destruct (ExitStatus_success st); simpl.
    - lazymatch goal with |- context [fs_rename ?a ?b ?s0] =>
        destruct (fs_rename_result a b s0) as [[f1 E1] | E1]; rewrite E1; simpl end.
      + lazymatch goal with |- context [fs_rename ?a ?b ?s0] =>
          destruct (fs_rename_result a b s0) as [[f2 E2] | E2]; rewrite E2; simpl end.
        all: intros Hin; rewrite <- !app_assoc in Hin; simpl in Hin.
        all: apply in_app_or in Hin as [Hin | Hin]; [by destruct Hna|].
        all: simpl in Hin; naive_solver.
      + intros Hin; rewrite <- !app_assoc in Hin; simpl in Hin.
        apply in_app_or in Hin as [Hin | Hin]; [by destruct Hna|].
        simpl in Hin; naive_solver.
    - intros Hin. rewrite <- app_assoc in Hin. simpl in Hin.
      apply in_app_or in Hin as [Hin | Hin]; [by destruct Hna|].
      simpl in Hin; naive_solver. }
  subst st. rewrite Hok. simpl.
  exists zt, zm, fc. split; [done|]. split; [done|].
  unfold zig_bin_name, zig_out_dir.
  lazymatch goal with |- context [fs_rename ?a ?b ?s0] =>
    destruct (fs_rename_result a b s0) as [[f1 E1] | E1]; rewrite E1; simpl end.
  - right. split; [done|].
    lazymatch goal with |- context [fs_rename ?a ?b ?s0] =>
      destruct (fs_rename_result a b s0) as [[f2 E2] | E2]; rewrite E2; simpl end.
    all: split; [by rewrite <- app_assoc|done].
  - left. split; [done|]. split; done.
Qed.

Lemma relocation_after_success_witness :
  In (EvExit (Exited 0))
    (st_trace (snd (run (sample_ext 200 true 0) cross_to_windows fs_out))) /\
  exists zig_target zig_mcpu fc,
    zig_target_mcpu_for_build_target (target cross_to_windows) = Some (zig_target, zig_mcpu) /\
    let sa := snd (acquire_source (sample_ext 200 true 0) cross_to_windows
                     (mk_st fs_out [EvStdout "cargo:rerun-if-env-changed=DO_IT"])) in
    let cmd := build_command cross_to_windows zig_target zig_mcpu in
    run_child (sample_ext 200 true 0) cmd (st_fs sa) = Some (Exited 0, fc) /\
    let d := join (join zig_bootstrap "out") ("zig-" ++ zig_target ++ "-" ++ zig_mcpu)%string in
    let bin := if cargo_cfg_windows cross_to_windows then "zig.exe" else "zig" in
    let src1 := join d bin in
    let dst1 := join (out_dir cross_to_windows) bin in
    let src2 := join d "lib" in
    let dst2 := join (out_dir cross_to_windows) "lib" in
    let s1 := mk_st fc ((st_trace sa ++ [EvSpawn cmd]) ++ [EvExit (Exited 0)]) in
    (fst (fs_rename src1 dst1 s1) <> Ok tt /\
     st_trace (snd (run (sample_ext 200 true 0) cross_to_windows fs_out))
       = st_trace s1 ++ [EvRename src1 dst1] /\
     run (sample_ext 200 true 0) cross_to_windows fs_out = fs_rename src1 dst1 s1) \/
    (fst (fs_rename src1 dst1 s1) = Ok tt /\
     st_trace (snd (run (sample_ext 200 true 0) cross_to_windows fs_out))
       = st_trace s1 ++ [EvRename src1 dst1; EvRename src2 dst2] /\
     run (sample_ext 200 true 0) cross_to_windows fs_out
       = fs_rename src2 dst2 (snd (fs_rename src1 dst1 s1))).
Proof.
  assert (H : In (EvExit (Exited 0))
    (st_trace (snd (run (sample_ext 200 true 0) cross_to_windows fs_out)))).
  { vm_compute. do 9 right. left. reflexivity. }
  split; [exact H|].
  exact (relocation_after_success (sample_ext 200 true 0) cross_to_windows fs_out
           (Exited 0) H eq_refl).
Defined.

(** C10: the entrypoint script follows the host's [cfg!(windows)] and the
    binary name the target's [cargo_cfg_windows]; the two are independent,
    so a cross build from a Unix host runs [./build] and moves [zig.exe],
    and a Windows host building for Linux runs [./build.bat] and moves
    [zig]. *)
Theorem script_and_binary_names_independent x c f :
  (forall cmd, In (EvSpawn cmd) (st_trace (snd (run x c f))) ->
     cmd_program cmd = if host_windows c then "./build.bat" else "./build") /\
  (forall src dst, In (EvRename src dst) (st_trace (snd (run x c f))) ->
     exists d,
       (src = join d (if cargo_cfg_windows c then "zig.exe" else "zig") /\
        dst = join (out_dir c) (if cargo_cfg_windows c then "zig.exe" else "zig")) \/
       (src = join d "lib" /\ dst = join (out_dir c) "lib")) /\
  In (EvSpawn (build_command (sample_config true false "x86_64-pc-windows-gnu" false true)
                 "x86_64-windows-gnu" "baseline"))
     (st_trace (snd (run (sample_ext 200 true 0)
                       (sample_config true false "x86_64-pc-windows-gnu" false true) fs_out))) /\
  cmd_program (build_command (sample_config true false "x86_64-pc-windows-gnu" false true)
                 "x86_64-windows-gnu" "baseline") = "./build" /\
  In (EvRename ["zig-bootstrap"; "out"; "zig-x86_64-windows-gnu-baseline"; "zig.exe"]
               ["out"; "zig.exe"])
     (st_trace (snd (run (sample_ext 200 true 0)
                       (sample_config true false "x86_64-pc-windows-gnu" false true) fs_out))) /\
  In (EvSpawn (build_command (sample_config true false "x86_64-unknown-linux-gnu" true false)
                 "x86_64-linux-gnu" "baseline"))
     (st_trace (snd (run (sample_ext 200 true 0)
                       (sample_config true false "x86_64-unknown-linux-gnu" true false) fs_out))) /\
  cmd_program (build_command (sample_config true false "x86_64-unknown-linux-gnu" true false)
                 "x86_64-linux-gnu" "baseline") = "./build.bat" /\
  In (EvRename ["zig-bootstrap"; "out"; "zig-x86_64-linux-gnu-baseline"; "zig"]
               ["out"; "zig"])
     (st_trace (snd (run (sample_ext 200 true 0)
                       (sample_config true false "x86_64-unknown-linux-gnu" true false) fs_out))).
Proof.
  split; [|split].
  - intros cmd Hin.
    destruct (run_build_event x c f (EvSpawn cmd) Hin ltac:(simpl; tauto) ltac:(by intros ? ?))
      as (_ & la & lb & _ & _ & Hs & Hlb).
    unfold build_stage_spec in Hs. destruct (docs_rs c).
    { rewrite List.Forall_forall in Hs. by destruct (Hs _ Hlb). }
    destruct (zig_target_mcpu_for_build_target (target c)) as [[zt zm]|].
    2: { destruct Hs as [-> _]. done. }
    build_cases Hs; simpl in Hlb; repeat destruct Hlb as [Hlb | Hlb]; simplify_eq;
      try contradiction; done.
  - intros src dst Hin.
    destruct (run_build_event x c f (EvRename src dst) Hin ltac:(simpl; tauto) ltac:(by intros ? ?))
      as (_ & la & lb & _ & _ & Hs & Hlb).
    unfold build_stage_spec in Hs. destruct (docs_rs c).
    { rewrite List.Forall_forall in Hs. by destruct (Hs _ Hlb). }
    destruct (zig_target_mcpu_for_build_target (target c)) as [[zt zm]|].
    2: { destruct Hs as [-> _]. done. }
    exists (zig_out_dir zt zm).
    build_cases Hs; simpl in Hlb; repeat destruct Hlb as [Hlb | Hlb]; simplify_eq;
      try contradiction; [left | left | right]; done.
  - split; [vm_compute; do 8 right; left; reflexivity|].
    split; [reflexivity|].
    split; [vm_compute; do 10 right; left; reflexivity|].
    split; [vm_compute; do 8 right; left; reflexivity|].
    split; [reflexivity|].
    vm_compute; do 10 right; left; reflexivity.
Qed.

(** ** Further properties of [main] *)

(** *** Inserting a list of entries into a filesystem *)

Lemma foldr_insert_lookup_other {X} (g : X -> path) (h : X -> node) (base : fsys) k L :
  (forall e, e ∈ L -> g e <> k) ->
  foldr (fun e acc => <[g e := h e]> acc) base L !! k = base !! k.
Proof.
  induction L as [|e L IH]; intros Hne; simpl; [done|].
  rewrite lookup_insert_ne.
  - apply IH. intros e' He'. apply Hne. by right.
  - apply Hne. by left.
Qed.

Lemma foldr_insert_lookup_hit {X} (g : X -> path) (h : X -> node) (base : fsys) k w L :
  (forall e, e ∈ L -> g e = k -> h e = w) -> (exists e, e ∈ L /\ g e = k) ->
  foldr (fun e acc => <[g e := h e]> acc) base L !! k = Some w.
Proof.
  induction L as [|e L IH]; intros Hw [e0 [He0 Hk]]; simpl.
  - inversion He0.
  - destruct (decide (g e = k)) as [<-|Hne].
    + rewrite lookup_insert_eq. f_equal. apply Hw; [by left | done].
    + rewrite lookup_insert_ne by done. apply IH.
      * intros e' He'. apply Hw. by right.
      * exists e0. split; [|done]. inversion He0; subst; [done|done].
Qed.

Lemma foldr_insert_present {X} (g : X -> path) (h : X -> node) (base : fsys) e L :
  e ∈ L -> is_Some (foldr (fun e acc => <[g e := h e]> acc) base L !! g e).
Proof.
  induction L as [|e' L IH]; intros He; simpl; [inversion He|].
  destruct (decide (g e' = g e)) as [Heq|Hne].
  - rewrite Heq, lookup_insert_eq. eauto.
  - rewrite lookup_insert_ne by done. apply IH.
    inversion He; subst; [done|done].
Qed.

(** *** [fs::rename] moves a subtree *)

Lemma moved_key_inj (src dst q t : path) :
  src `prefix_of` q -> dst ++ drop (length src) q = dst ++ t -> q = src ++ t.
Proof.
  intros [u ->] Heq. rewrite drop_app_length in Heq.
  apply app_inv_head in Heq. by subst.
Qed.

Lemma elem_of_moved (f : fsys) (src : path) kv :
  kv ∈ filter (fun kv : path * node => src `prefix_of` kv.1) (map_to_list f) ->
  src `prefix_of` kv.1 /\ f !! kv.1 = Some kv.2.
Proof.
  intros H. apply list_elem_of_filter in H as [Hp Hin].
  destruct kv as [q n]. apply elem_of_map_to_list in Hin. done.
Qed.

(** The destination receives the node the source had. *)
Lemma move_subtree_dst (f : fsys) src dst :
  move_subtree f src dst !! dst = f !! src.
Proof.
  unfold move_subtree. destruct (f !! src) as [n|] eqn:Hs.
  - apply (foldr_insert_lookup_hit (fun kv : path * node => dst ++ drop (length src) kv.1) snd).
    + intros kv Hkv Hk. apply elem_of_moved in Hkv as [Hp Hf].
      rewrite <- (app_nil_r dst) in Hk at 2.
      apply moved_key_inj in Hk; [|done]. rewrite app_nil_r in Hk.
      rewrite Hk, Hs in Hf. by simplify_eq.
    + exists (src, n). split.
      * apply list_elem_of_filter. split; [simpl; by exists []; rewrite app_nil_r|].
        by apply elem_of_map_to_list.
      * simpl. by rewrite drop_all, app_nil_r.
  - rewrite (foldr_insert_lookup_other (fun kv : path * node => dst ++ drop (length src) kv.1) snd).
    + by rewrite lookup_delete_eq.
    + intros kv Hkv Hk. apply elem_of_moved in Hkv as [Hp Hf].
      rewrite <- (app_nil_r dst) in Hk at 2.
      apply moved_key_inj in Hk; [|done]. rewrite app_nil_r in Hk.
      rewrite Hk, Hs in Hf. done.
Qed.

(** The source is gone, unless the destination is above it. *)
Lemma move_subtree_src (f : fsys) src dst :
  ~ dst `prefix_of` src -> move_subtree f src dst !! src = None.
Proof.
  intros Hd. unfold move_subtree.
  rewrite (foldr_insert_lookup_other (fun kv : path * node => dst ++ drop (length src) kv.1) snd).
  - rewrite lookup_delete_ne.
    + apply map_lookup_filter_None_2. right. intros x _ Hn. apply Hn. simpl.
      exists []. by rewrite app_nil_r.
    + intros ->. apply Hd. exists []. by rewrite app_nil_r.
  - intros kv _ Hk. apply Hd. simpl in Hk. rewrite <- Hk. by exists (drop (length src) kv.1).
Qed.

(** Everything outside the source and destination subtrees is kept. *)
Lemma move_subtree_frame (f : fsys) src dst k :
  ~ src `prefix_of` k -> ~ dst `prefix_of` k -> move_subtree f src dst !! k = f !! k.
Proof.
  intros Hs Hd. unfold move_subtree.
  rewrite (foldr_insert_lookup_other (fun kv : path * node => dst ++ drop (length src) kv.1) snd).
  - rewrite lookup_delete_ne.
    + destruct (f !! k) eqn:E.
      * by apply map_lookup_filter_Some_2.
      * apply map_lookup_filter_None_2. by left.
    + intros ->. apply Hd. exists []. by rewrite app_nil_r.
  - intros kv _ Hk. apply Hd. simpl in Hk. rewrite <- Hk. by exists (drop (length src) kv.1).
Qed.

Lemma fs_rename_ok src dst f tr s' :
  fs_rename src dst (mk_st f tr) = (Ok tt, s') ->
  is_Some (f !! src) /\ st_fs s' = move_subtree f src dst /\
  st_trace s' = tr ++ [EvRename src dst].
Proof.
  unfold fs_rename, bind, log, get_fs, put_fs, ret, throw. simpl.
  intros H. repeat (case_match; simplify_eq/=); eauto.
Qed.

(** *** The acquisition stage step by step *)

Lemma fetch_and_extract_steps x c s :
  exists l, st_trace (snd (fetch_and_extract x c s)) = st_trace s ++ l /\
    l <> [] /\ l `prefix_of` acquisition_steps c /\
    (fst (fetch_and_extract x c s) = Ok tt -> l = acquisition_steps c).
Proof.
  destruct s as [f tr].
  unfold fetch_and_extract, reqwest_get, error_for_status, file_create,
    file_write_all, file_open, extract_unwrapped_root_dir, fs_create_dir_all,
    fs_remove_file, bind, log, get_fs, put_fs, ret, throw; simpl.
  repeat (case_match; simplify_eq/=).
  all: eexists; split; [rewrite <- ?app_assoc; reflexivity|]; simpl.
  all: split; [done|]; split; [eexists; reflexivity|].
  all: intros Hr; first [discriminate Hr | reflexivity].
Qed.

(** X4: the acquisition stage performs a prefix of the fixed download
    sequence (fetch, create, write, open, extract, create the tree, remove
    the archive); it performs nothing exactly when the run is in
    documentation mode or [zig-bootstrap] exists, and then changes nothing;
    when it succeeds after starting the download it has performed the
    whole sequence. *)
Theorem acquire_source_steps x c s :
  exists l, st_trace (snd (acquire_source x c s)) = st_trace s ++ l /\
    l `prefix_of` acquisition_steps c /\
    (l = [] <-> docs_rs c = true \/ is_Some (st_fs s !! zig_bootstrap)) /\
    (l = [] -> acquire_source x c s = (Ok tt, s)) /\
    (fst (acquire_source x c s) = Ok tt -> l = [] \/ l = acquisition_steps c).
Proof.
  unfold acquire_source, fs_exists, bind, get_fs, ret.
  destruct (docs_rs c).
  { exists []. rewrite app_nil_r. split; [done|]. split; [apply prefix_nil|]. naive_solver. }
  simpl. destruct (st_fs s !! zig_bootstrap) as [n|] eqn:E; simpl.
  { exists []. rewrite app_nil_r. split; [done|]. split; [apply prefix_nil|].
    split; [|naive_solver]. split; [eauto|done]. }
  destruct (fetch_and_extract_steps x c s) as (l & Hl & Hne & Hp & Hok).
  exists l. split; [done|]. split; [done|]. split; [|split].
  - split; [done|]. intros [? | [? ?]]; congruence.
  - done.
  - intros Hr. right. by apply Hok.
Qed.

(** The trace of [main] once the gate is open: the directive, then what
    the acquisition stage emits, then what the building stage emits. *)
Lemma run_trace_after_acquisition x c f
    (Hgate : do_it c = true) :
  exists rest,
    st_trace (snd (run x c f)) =
      st_trace (snd (acquire_source x c
        (mk_st f [EvStdout "cargo:rerun-if-env-changed=DO_IT"]))) ++ rest.
Proof.
  set (s0 := mk_st f [EvStdout "cargo:rerun-if-env-changed=DO_IT"]).
  assert (Hrun : run x c f =
    bind (acquire_source x c) (fun _ => bind (build_and_relocate x c) (fun _ => ret tt)) s0).
  { unfold run, main, rerun_if_env_changed, bind at 1, log. simpl. by rewrite Hgate. }
  rewrite Hrun. unfold bind.
  destruct (acquire_source x c s0) as [[u|e] s1]; simpl.
  - destruct (build_and_relocate_spec x c s1) as [lb [Eb _]].
    destruct (build_and_relocate x c s1) as [[v|e] s2]; simpl in *; eauto.
  - exists []. by rewrite app_nil_r.
Qed.

(** X2: when the source tree is missing, the archive is fetched right after
    the directive is printed, before the target triple is looked up: the
    download happens whatever the target, mapped or not. *)
Theorem fetch_precedes_target_mapping x c f
    (Hgate : do_it c = true) (Hdocs : docs_rs c = false)
    (Habs : f !! zig_bootstrap = None) :
  exists rest, st_trace (snd (run x c f)) =
    EvStdout "cargo:rerun-if-env-changed=DO_IT" :: EvFetch (archive_url c) :: rest.
Proof.
  destruct (run_trace_after_acquisition x c f Hgate) as [rest Hr].
  rewrite Hr. unfold acquire_source, fs_exists, bind, get_fs, ret.
  rewrite Hdocs. simpl. rewrite Habs. simpl.
  destruct (fetch_and_extract_steps x c (mk_st f [EvStdout "cargo:rerun-if-env-changed=DO_IT"]))
    as (l & Hl & Hne & [k Hk] & _).
  rewrite Hl. simpl.
  destruct l as [|e l]; [done|].
  unfold acquisition_steps in Hk. simpl in Hk. injection Hk as -> _.
  by exists (l ++ rest).
Qed.

Lemma fetch_precedes_target_mapping_witness :
  exists rest, st_trace (snd (run (sample_ext 200 true 0)
                   (sample_config true false "riscv64gc-unknown-linux-gnu" false false) fs_out)) =
    EvStdout "cargo:rerun-if-env-changed=DO_IT"
      :: EvFetch (archive_url (sample_config true false "riscv64gc-unknown-linux-gnu" false false))
      :: rest.
Proof.
  apply fetch_precedes_target_mapping; reflexivity.
Defined.

(** X3: when the source tree must be fetched and the transport fails, the
    routine fails with the transport error right after the fetch, and the
    filesystem is unchanged. *)
Theorem fetch_transport_error_leaves_fs x c f
    (Hgate : do_it c = true) (Hdocs : docs_rs c = false)
    (Habs : f !! zig_bootstrap = None)
    (Hget : http_get x (archive_url c) = None) :
  run x c f = (Err (ErrTransport (archive_url c)),
               mk_st f [EvStdout "cargo:rerun-if-env-changed=DO_IT";
                        EvFetch (archive_url c)]).
Proof.
  unfold run, main, rerun_if_env_changed, acquire_source, fs_exists,
    fetch_and_extract, reqwest_get, bind, log, get_fs, put_fs, ret, throw.
  rewrite Hgate, Hdocs. simpl. rewrite Habs. simpl. rewrite Hget. reflexivity.
Qed.

Lemma fetch_transport_error_leaves_fs_witness :
  run offline_ext (sample_config true false "x86_64-unknown-linux-gnu" false false) fs_out
  = (Err (ErrTransport (archive_url (sample_config true false "x86_64-unknown-linux-gnu" false false))),
     mk_st fs_out [EvStdout "cargo:rerun-if-env-changed=DO_IT";
                   EvFetch (archive_url (sample_config true false "x86_64-unknown-linux-gnu" false false))]).
Proof.
  apply fetch_transport_error_leaves_fs; reflexivity.
Defined.

(** *** Failures of the building stage *)

(** X1: for a target with no zig mapping (outside documentation mode) the
    routine fails, starts no child and renames nothing; when the source
    tree is already present it fails at once with the message
    [unmapped target: <target>] and leaves the filesystem unchanged. *)
Theorem unmapped_target_fails x c f
    (Hgate : do_it c = true) (Hdocs : docs_rs c = false)
    (Hmap : zig_target_mcpu_for_build_target (target c) = None) :
  fst (run x c f) <> Ok tt /\
  (forall cmd, ~ In (EvSpawn cmd) (st_trace (snd (run x c f)))) /\
  (forall src dst, ~ In (EvRename src dst) (st_trace (snd (run x c f)))) /\
  (is_Some (f !! zig_bootstrap) ->
   run x c f = (Err (ErrMsg ("unmapped target: " ++ target c)%string),
                mk_st f [EvStdout "cargo:rerun-if-env-changed=DO_IT"])).
Proof.
  assert (Hlb : forall e, In e (st_trace (snd (run x c f))) ->
             ~ acquisition_event e -> (forall line, e <> EvStdout line) -> False).
  { intros e Hin Hacq Hout.
    destruct (run_build_event x c f e Hin Hacq Hout) as (_ & la & lb & _ & _ & Hs & Hl).
    unfold build_stage_spec in Hs. rewrite Hdocs, Hmap in Hs. destruct Hs as [-> _].
    done. }
  split; [|split; [|split]].
  - destruct (run_shape x c f) as [[Hg _] | [_ [la [_ [[e [He _]] | [lb [_ Hs]]]]]]].
    + congruence.
    + by rewrite He.
    + unfold build_stage_spec in Hs. rewrite Hdocs, Hmap in Hs. destruct Hs as [_ ->].
      done.
  - intros cmd Hin. exact (Hlb _ Hin ltac:(simpl; tauto) ltac:(by intros ? ?)).
  - intros src dst Hin. exact (Hlb _ Hin ltac:(simpl; tauto) ltac:(by intros ? ?)).
  - intros [n Hn].
    unfold run, main, rerun_if_env_changed, acquire_source, fs_exists,
      build_and_relocate, bind, log, get_fs, ret, throw.
    rewrite Hgate, Hdocs. simpl. rewrite Hn. simpl. rewrite Hmap. reflexivity.
Qed.

Lemma unmapped_target_fails_witness :
  fst (run (sample_ext 200 true 0) (sample_config true false "riscv64gc-unknown-linux-gnu" false false) fs_tree) <> Ok tt /\
  (forall cmd, ~ In (EvSpawn cmd) (st_trace (snd (run (sample_ext 200 true 0)
       (sample_config true false "riscv64gc-unknown-linux-gnu" false false) fs_tree)))) /\
  (forall src dst, ~ In (EvRename src dst) (st_trace (snd (run (sample_ext 200 true 0)
       (sample_config true false "riscv64gc-unknown-linux-gnu" false false) fs_tree)))) /\
  (is_Some (fs_tree !! zig_bootstrap) ->
   run (sample_ext 200 true 0) (sample_config true false "riscv64gc-unknown-linux-gnu" false false) fs_tree
   = (Err (ErrMsg ("unmapped target: "
                   ++ target (sample_config true false "riscv64gc-unknown-linux-gnu" false false))%string),
      mk_st fs_tree [EvStdout "cargo:rerun-if-env-changed=DO_IT"])).
Proof.
  apply unmapped_target_fails; reflexivity.
Defined.

(** X6: when the child is started but no exit status comes back (it could
    not be spawned), the routine fails with the spawn error, the spawn is
    its last action, and nothing is renamed. *)
Theorem spawn_failure_fatal x c f cmd
    (Hspawn : In (EvSpawn cmd) (st_trace (snd (run x c f))))
    (Hnoexit : forall status, ~ In (EvExit status) (st_trace (snd (run x c f)))) :
  fst (run x c f) = Err (ErrSpawn cmd) /\
  (exists pre, st_trace (snd (run x c f)) = pre ++ [EvSpawn cmd]) /\
  (forall src dst, ~ In (EvRename src dst) (st_trace (snd (run x c f)))).
Proof.
  destruct (run_build_event x c f (EvSpawn cmd) Hspawn ltac:(simpl; tauto) ltac:(by intros ? ?))
    as (_ & la & lb & Fa & E & Hs & Hlb).
  assert (Hexit : forall status, ~ In (EvExit status) lb).
  { intros status Hin. apply (Hnoexit status). rewrite E. right. apply in_or_app. by right. }
  assert (Hren : forall src dst, In (EvRename src dst) (st_trace (snd (run x c f))) ->
                                 In (EvRename src dst) lb).
  { intros src dst Hr. exact (trace_in_build_part _ _ _ _ E Fa Hr ltac:(simpl; tauto)
                                ltac:(by intros ? ?)). }
  unfold build_stage_spec in Hs. destruct (docs_rs c).
  { rewrite List.Forall_forall in Hs. by destruct (Hs _ Hlb). }
  destruct (zig_target_mcpu_for_build_target (target c)) as [[zt zm]|].
  2: { destruct Hs as [-> _]. done. }
  build_cases Hs.
  - simpl in Hlb. destruct Hlb as [Heq | []]. simplify_eq. split; [done|]. split.
    + exists (EvStdout "cargo:rerun-if-env-changed=DO_IT" :: la). by rewrite E.
    + intros src dst Hq. apply Hren in Hq. simpl in Hq. naive_solver.
  - exfalso. apply (Hexit status). simpl. auto.
  - exfalso. apply (Hexit status). simpl. auto.
  - exfalso. apply (Hexit status). simpl. auto.
Qed.

Lemma spawn_failure_fatal_witness :
  fst (run offline_ext (sample_config true false "x86_64-unknown-linux-gnu" false false) fs_tree)
    = Err (ErrSpawn (build_command (sample_config true false "x86_64-unknown-linux-gnu" false false)
                       "x86_64-linux-gnu" "baseline")) /\
  (exists pre, st_trace (snd (run offline_ext
                   (sample_config true false "x86_64-unknown-linux-gnu" false false) fs_tree))
     = pre ++ [EvSpawn (build_command (sample_config true false "x86_64-unknown-linux-gnu" false false)
                          "x86_64-linux-gnu" "baseline")]) /\
  (forall src dst, ~ In (EvRename src dst) (st_trace (snd (run offline_ext
       (sample_config true false "x86_64-unknown-linux-gnu" false false) fs_tree)))).
Proof.
  apply spawn_failure_fatal.
  - vm_compute. right. left. reflexivity.
  - intros status. vm_compute. intros [H | [H | []]]; discriminate H.
Defined.

(** *** What extraction leaves on disk *)

Lemma foldr_insert_lookup_in {X} (g : X -> path) (h : X -> node) (base : fsys) e L :
  e ∈ L -> exists e', e' ∈ L /\ g e' = g e /\
    foldr (fun e acc => <[g e := h e]> acc) base L !! g e = Some (h e').
Proof.
  induction L as [|e0 L IH]; intros He; simpl; [inversion He|].
  destruct (decide (g e0 = g e)) as [Heq|Hne].
  - exists e0. split; [by left|]. split; [done|]. by rewrite Heq, lookup_insert_eq.
  - rewrite lookup_insert_ne by done.
    inversion He; subst; [done|].
    destruct IH as (e' & He' & Hg & Hl); [done|].
    exists e'. split; [by right|]. done.
Qed.

(** X5: after a successful download and extraction, every entry of the
    archive sits at its path under [zig-bootstrap], holding the node of an
    entry with that path; every path outside [zig-bootstrap] other than the
    archive's keeps its node; and the archive is gone. *)
Theorem extraction_result x c s s1 resp entries
    (Hdocs : docs_rs c = false) (Habs : st_fs s !! zig_bootstrap = None)
    (Hget : http_get x (archive_url c) = Some resp)
    (Hzip : zip_extract x (resp_body resp) = Some entries)
    (Hrun : acquire_source x c s = (Ok tt, s1)) :
  (forall p n, (p, n) ∈ entries ->
     exists n', (p, n') ∈ entries /\ st_fs s1 !! (zig_bootstrap ++ p) = Some n') /\
  (forall k, ~ zig_bootstrap `prefix_of` k -> k <> zig_bootstrap_zip ->
     st_fs s1 !! k = st_fs s !! k) /\
  st_fs s1 !! zig_bootstrap_zip = None.
Proof.
  destruct s as [f tr]. simpl in *.
  unfold acquire_source, fs_exists, fetch_and_extract, reqwest_get, error_for_status,
    file_create, file_write_all, file_open, extract_unwrapped_root_dir,
    fs_create_dir_all, fs_remove_file, bind, log, get_fs, put_fs, ret, throw in Hrun.
  rewrite Hdocs in Hrun. simpl in Hrun. rewrite Habs, Hget in Hrun. simpl in Hrun.
  repeat (case_match; simplify_eq/=).
  all: rewrite lookup_insert_eq in *; simplify_eq.
  all: change zig_bootstrap with ["zig-bootstrap"] in Habs.
  all: try match goal with
       | H : <[_ := _]> _ !! ["zig-bootstrap"] = Some Dir |- _ =>
           rewrite !lookup_insert_ne in H by done; congruence
       end.
  split; [|split; [|by rewrite lookup_delete_eq]].
  - intros p n Hpn.
    destruct (foldr_insert_lookup_in (fun e : path * node => "zig-bootstrap" :: e.1) snd
                (<[["zig-bootstrap"] := Dir]>
                   (<[zig_bootstrap_zip := File (resp_body a)]>
                      (<[zig_bootstrap_zip := File []]> f)))
                (p, n) entries Hpn) as ([p' n'] & Hin & Hg & Hl).
    simpl in Hg. injection Hg as ->. exists n'. split; [done|].
    rewrite lookup_delete_ne; [exact Hl|done].
  - intros k Hk Hz. rewrite lookup_delete_ne by done.
    etransitivity.
    { apply (foldr_insert_lookup_other (fun e : path * node => "zig-bootstrap" :: e.1) snd).
      intros e _ He. apply Hk. rewrite <- He. by exists e.1. }
    rewrite !lookup_insert_ne; [done|..].
    all: intros Heq; subst k; first [done | apply Hk; by exists []].
Qed.

Lemma extraction_result_witness :
  (forall p n, (p, n) ∈ sample_entries ->
     exists n', (p, n') ∈ sample_entries /\
       st_fs (snd (acquire_source (sample_ext 200 true 0) linux_native (mk_st fs_out [])))
         !! (zig_bootstrap ++ p) = Some n') /\
  (forall k, ~ zig_bootstrap `prefix_of` k -> k <> zig_bootstrap_zip ->
     st_fs (snd (acquire_source (sample_ext 200 true 0) linux_native (mk_st fs_out []))) !! k
     = st_fs (mk_st fs_out []) !! k) /\
  st_fs (snd (acquire_source (sample_ext 200 true 0) linux_native (mk_st fs_out [])))
    !! zig_bootstrap_zip = None.
Proof.
  apply (extraction_result (sample_ext 200 true 0) linux_native (mk_st fs_out [])
           (snd (acquire_source (sample_ext 200 true 0) linux_native (mk_st fs_out [])))
           (mk_response 200 sample_body) sample_entries);
    [reflexivity | reflexivity | reflexivity | reflexivity | vm_compute; reflexivity].
Defined.

(** *** What relocation leaves on disk *)

Lemma not_prefix_last (p : path) a b :
  a <> b -> ~ (p ++ [a]) `prefix_of` (p ++ [b]).
Proof.
  intros Hab [k Hk]. rewrite <- app_assoc in Hk. apply app_inv_head in Hk.
  simpl in Hk. congruence.
Qed.

(** A path directly inside an output directory that is not below
    [zig-bootstrap] and a path below [zig-bootstrap] are not prefixes of
    one another. *)
Lemma out_apart_from_tree (o r : path) n
    (Ho : head o <> Some "zig-bootstrap") (Hn : n <> "zig-bootstrap") :
  ~ (o ++ [n]) `prefix_of` ("zig-bootstrap" :: r) /\
  ~ ("zig-bootstrap" :: r) `prefix_of` (o ++ [n]).
Proof.
  destruct o as [|a o]; simpl in *; split; intros H.
  all: first [apply prefix_cons_inv_1 in H | apply prefix_cons_inv_1 in H]; congruence.
Qed.

Lemma build_and_relocate_ok x c s s'
    (Hdocs : docs_rs c = false) (Hrun : build_and_relocate x c s = (Ok tt, s')) :
  exists zt zm status fc s2,
    zig_target_mcpu_for_build_target (target c) = Some (zt, zm) /\
    run_child x (build_command c zt zm) (st_fs s) = Some (status, fc) /\
    ExitStatus_success status = true /\
    fs_rename (join (zig_out_dir zt zm) (zig_bin_name c)) (join (out_dir c) (zig_bin_name c))
      (mk_st fc (st_trace s ++ [EvSpawn (build_command c zt zm)] ++ [EvExit status]))
      = (Ok tt, s2) /\
    fs_rename (join (zig_out_dir zt zm) "lib") (join (out_dir c) "lib") s2 = (Ok tt, s').
Proof.
  unfold build_and_relocate in Hrun. rewrite Hdocs in Hrun.
  destruct (zig_target_mcpu_for_build_target (target c)) as [[zt zm]|]; [|done].
  unfold Command_status, bind, log, get_fs, put_fs, ret, throw in Hrun. simpl in Hrun.
  destruct (run_child x _ _) as [[status fc]|] eqn:Hc; [|done]. simpl in Hrun.
  destruct (ExitStatus_success status) eqn:Hs; simpl in Hrun; [|done].
  rewrite <- app_assoc in Hrun.
  match type of Hrun with
  | match fs_rename ?a ?b ?s0 with _ => _ end = _ =>
      destruct (fs_rename a b s0) as [[[]|e] s2] eqn:E1
  end; [|done].
  exists zt, zm, status, fc, s2. done.
Qed.

Lemma run_ok_split x c f s'
    (Hgate : do_it c = true) (Hrun : run x c f = (Ok tt, s')) :
  exists s1,
    acquire_source x c (mk_st f [EvStdout "cargo:rerun-if-env-changed=DO_IT"]) = (Ok tt, s1) /\
    build_and_relocate x c s1 = (Ok tt, s').
Proof.
  unfold run, main, rerun_if_env_changed, bind at 1, log in Hrun. simpl in Hrun.
  rewrite Hgate in Hrun. simpl in Hrun. unfold bind in Hrun.
  destruct (acquire_source _ _ _) as [[[]|e] s1]; [|done].
  destruct (build_and_relocate x c s1) as [[[]|e] s2] eqn:E; [|done].
  unfold ret in Hrun. simplify_eq. eauto.
Qed.

(** X7: after a successful run outside documentation mode, with an output
    directory that is not below [zig-bootstrap], the target had a mapping
    and the child exited successfully; the output directory then holds, as
    the binary and as [lib], exactly the nodes the child left in
    [zig-bootstrap/out/zig-<target>-<mcpu>/] (both existed), and both are
    gone from there. *)
Theorem relocation_moves_outputs x c f
    (Hgate : do_it c = true) (Hdocs : docs_rs c = false)
    (Hout : head (out_dir c) <> Some "zig-bootstrap")
    (Hok : fst (run x c f) = Ok tt) :
  exists zig_target zig_mcpu fs0 status fc,
    zig_target_mcpu_for_build_target (target c) = Some (zig_target, zig_mcpu) /\
    run_child x (build_command c zig_target zig_mcpu) fs0 = Some (status, fc) /\
    ExitStatus_success status = true /\
    let d := zig_out_dir zig_target zig_mcpu in
    is_Some (fc !! join d (zig_bin_name c)) /\ is_Some (fc !! join d "lib") /\
    st_fs (snd (run x c f)) !! join (out_dir c) (zig_bin_name c) = fc !! join d (zig_bin_name c) /\
    st_fs (snd (run x c f)) !! join (out_dir c) "lib" = fc !! join d "lib" /\
    st_fs (snd (run x c f)) !! join d (zig_bin_name c) = None /\
    st_fs (snd (run x c f)) !! join d "lib" = None.
Proof.
  destruct (run x c f) as [r s'] eqn:Hrun. simpl in Hok. subst r. simpl.
  destruct (run_ok_split x c f s' Hgate Hrun) as (s1 & _ & Hb).
  destruct (build_and_relocate_ok x c s1 s' Hdocs Hb)
    as (zt & zm & status & fc & [f2 tr2] & Hmap & Hc & Hs & E1 & E2).
  apply fs_rename_ok in E1 as (Hsrc1 & Hf2 & _).
  apply fs_rename_ok in E2 as (Hsrc2 & Hf3 & _). simpl in Hf2, Hsrc2.
  exists zt, zm, (st_fs s1), status, fc. split; [done|]. split; [done|]. split; [done|].
  simpl. rewrite Hf3. subst f2.
  assert (Hbn : zig_bin_name c <> "lib") by (unfold zig_bin_name; by case_match).
  assert (Hbz : zig_bin_name c <> "zig-bootstrap") by (unfold zig_bin_name; by case_match).
  set (d := zig_out_dir zt zm).
  assert (Hd : d = ["zig-bootstrap"; "out"; ("zig-" ++ zt ++ "-" ++ zm)%string]) by done.
  pose proof (out_apart_from_tree (out_dir c) (["out"; ("zig-" ++ zt ++ "-" ++ zm)%string]
                ++ [zig_bin_name c]) (zig_bin_name c) Hout Hbz) as [A1 B1].
  pose proof (out_apart_from_tree (out_dir c) (["out"; ("zig-" ++ zt ++ "-" ++ zm)%string]
                ++ ["lib"]) (zig_bin_name c) Hout Hbz) as [A2 B2].
  pose proof (out_apart_from_tree (out_dir c) (["out"; ("zig-" ++ zt ++ "-" ++ zm)%string]
                ++ [zig_bin_name c]) "lib" Hout ltac:(done)) as [A3 B3].
  pose proof (out_apart_from_tree (out_dir c) (["out"; ("zig-" ++ zt ++ "-" ++ zm)%string]
                ++ ["lib"]) "lib" Hout ltac:(done)) as [A4 B4].
  pose proof (not_prefix_last d (zig_bin_name c) "lib" Hbn) as P1.
  pose proof (not_prefix_last d "lib" (zig_bin_name c) ltac:(done)) as P2.
  pose proof (not_prefix_last (out_dir c) (zig_bin_name c) "lib" Hbn) as P3.
  pose proof (not_prefix_last (out_dir c) "lib" (zig_bin_name c) ltac:(done)) as P4.
  unfold join. rewrite Hd in *. simpl in *.
  rewrite move_subtree_frame in Hsrc2 by done.
  split; [done|]. split; [done|]. split; [|split; [|split]].
  - rewrite move_subtree_frame by done. apply move_subtree_dst.
  - rewrite move_subtree_dst. by rewrite move_subtree_frame.
  - rewrite move_subtree_frame by done. by apply move_subtree_src.
  - by apply move_subtree_src.
Qed.

Lemma relocation_moves_outputs_witness :
  fst (run (sample_ext 200 true 0) linux_native fs_out) = Ok tt /\
  exists zig_target zig_mcpu fs0 status fc,
    zig_target_mcpu_for_build_target (target linux_native) = Some (zig_target, zig_mcpu) /\
    run_child (sample_ext 200 true 0) (build_command linux_native zig_target zig_mcpu) fs0
      = Some (status, fc) /\
    ExitStatus_success status = true /\
    let d := zig_out_dir zig_target zig_mcpu in
    is_Some (fc !! join d (zig_bin_name linux_native)) /\ is_Some (fc !! join d "lib") /\
    st_fs (snd (run (sample_ext 200 true 0) linux_native fs_out))
      !! join (out_dir linux_native) (zig_bin_name linux_native)
      = fc !! join d (zig_bin_name linux_native) /\
    st_fs (snd (run (sample_ext 200 true 0) linux_native fs_out))
      !! join (out_dir linux_native) "lib" = fc !! join d "lib" /\
    st_fs (snd (run (sample_ext 200 true 0) linux_native fs_out))
      !! join d (zig_bin_name linux_native) = None /\
    st_fs (snd (run (sample_ext 200 true 0) linux_native fs_out)) !! join d "lib" = None.
Proof.
  assert (H : fst (run (sample_ext 200 true 0) linux_native fs_out) = Ok tt).
  { vm_compute. reflexivity. }
  split; [exact H|].
  exact (relocation_moves_outputs (sample_ext 200 true 0) linux_native fs_out
           eq_refl eq_refl ltac:(discriminate) H).
Defined.

(** *** Documentation mode touches nothing else *)

Lemma mkdirs_preserves rest : forall (f f' : fsys) d p,
  mkdirs f d rest = Some f' -> is_Some (f !! p) -> f' !! p = f !! p.
Proof.
  induction rest as [|a rest IH]; intros f f' d p Hm Hp; simpl in Hm.
  - by simplify_eq.
  - destruct (f !! (d ++ [a])) as [[b|]|] eqn:Ea; [done| |].
    + by apply (IH f f' (d ++ [a])).
    + rewrite (IH _ f' (d ++ [a]) p Hm).
      * rewrite lookup_insert_ne; [done|]. intros <-. destruct Hp as [? Hp]. congruence.
      * rewrite lookup_insert_ne; [done|]. intros <-. destruct Hp as [? Hp]. congruence.
Qed.

Lemma mkdirs_new rest : forall (f f' : fsys) d p,
  mkdirs f d rest = Some f' -> f !! p = None ->
  f' !! p = None \/ (p `prefix_of` d ++ rest /\ f' !! p = Some Dir).
Proof.
  induction rest as [|a rest IH]; intros f f' d p Hm Hp; simpl in Hm.
  - simplify_eq. by left.
  - replace (d ++ a :: rest) with ((d ++ [a]) ++ rest) by (by rewrite <- app_assoc).
    destruct (f !! (d ++ [a])) as [[b|]|] eqn:Ea; [done| |].
    + by apply (IH f f' (d ++ [a])).
    + destruct (decide (p = d ++ [a])) as [->|Hne].
      * right. split; [by exists rest|].
        rewrite (mkdirs_preserves rest _ f' (d ++ [a]) _ Hm); [by rewrite lookup_insert_eq|].
        rewrite lookup_insert_eq. eauto.
      * apply (IH _ f' (d ++ [a]) p Hm). by rewrite lookup_insert_ne.
Qed.

(** X8: in documentation mode the only file a run can write is the binary
    placeholder, which it leaves empty or as it was; every other existing
    entry keeps its node, and any new entry is a directory on the path to
    [<out>/lib].  This holds whether the run succeeds or fails. *)
Theorem docs_mode_frame x c f
    (Hgate : do_it c = true) (Hdocs : docs_rs c = true) :
  (st_fs (snd (run x c f)) !! join (out_dir c) (zig_bin_name c)
     = f !! join (out_dir c) (zig_bin_name c) \/
   st_fs (snd (run x c f)) !! join (out_dir c) (zig_bin_name c) = Some (File [])) /\
  (forall p, p <> join (out_dir c) (zig_bin_name c) -> is_Some (f !! p) ->
     st_fs (snd (run x c f)) !! p = f !! p) /\
  (forall p, p <> join (out_dir c) (zig_bin_name c) -> f !! p = None ->
     st_fs (snd (run x c f)) !! p = None \/
     (p `prefix_of` join (out_dir c) "lib" /\ st_fs (snd (run x c f)) !! p = Some Dir)).
Proof.
  set (bin := join (out_dir c) (zig_bin_name c)).
  set (lib := join (out_dir c) "lib").
  unfold run, main, rerun_if_env_changed, acquire_source, build_and_relocate,
    fs_write, file_create, file_write_all, fs_create_dir_all,
    bind, log, get_fs, put_fs, ret, throw.
  rewrite Hgate, Hdocs. simpl. fold bin lib.
  destruct (bool_decide (f !! bin = Some Dir) || negb (parent_is_dir f bin)); simpl.
  { split; [by left|]. split; [done|]. intros p _ Hp. by left. }
  rewrite lookup_insert_eq. simpl. rewrite insert_insert_eq.
  destruct (mkdirs (<[bin := File []]> f) [] lib) as [f'|] eqn:Hm; simpl.
  - split; [|split].
    + right. rewrite (mkdirs_preserves _ _ _ _ _ Hm); rewrite lookup_insert_eq; eauto.
    + intros p Hp Hs. rewrite (mkdirs_preserves _ _ _ _ _ Hm).
      * by rewrite lookup_insert_ne.
      * by rewrite lookup_insert_ne.
    + intros p Hne Hp. apply (mkdirs_new _ _ _ _ _ Hm). by rewrite lookup_insert_ne.
  - split; [right; by rewrite lookup_insert_eq|]. split.
    + intros p Hp _. by rewrite lookup_insert_ne.
    + intros p Hne Hp. left. by rewrite lookup_insert_ne.
Qed.

Lemma docs_mode_frame_witness :
  (st_fs (snd (run (sample_ext 200 true 0) (sample_config true true "riscv64gc-unknown-linux-gnu" false false) fs_out))
     !! ["out"; "zig"] = fs_out !! ["out"; "zig"] \/
   st_fs (snd (run (sample_ext 200 true 0) (sample_config true true "riscv64gc-unknown-linux-gnu" false false) fs_out))
     !! ["out"; "zig"] = Some (File [])) /\
  (forall p, p <> ["out"; "zig"] -> is_Some (fs_out !! p) ->
     st_fs (snd (run (sample_ext 200 true 0) (sample_config true true "riscv64gc-unknown-linux-gnu" false false) fs_out))
       !! p = fs_out !! p) /\
  (forall p, p <> ["out"; "zig"] -> fs_out !! p = None ->
     st_fs (snd (run (sample_ext 200 true 0) (sample_config true true "riscv64gc-unknown-linux-gnu" false false) fs_out))
       !! p = None \/
     (p `prefix_of` ["out"; "lib"] /\
      st_fs (snd (run (sample_ext 200 true 0) (sample_config true true "riscv64gc-unknown-linux-gnu" false false) fs_out))
        !! p = Some Dir)).
Proof.
  exact (docs_mode_frame (sample_ext 200 true 0)
           (sample_config true true "riscv64gc-unknown-linux-gnu" false false) fs_out
           eq_refl eq_refl).
Defined.
